(** * PyStemmer build helper ([setup.py]): model and verified properties

    The development embeds the logic of [setup.py]: the manifest parser of
    [LibrarySourceCode], the presence check and the download entry point,
    the module-level choice between the system library and the vendored
    sources, and the [bootstrap] command.

    Python strings are modelled as [string] (code points below 256), sets of
    strings as [gset string], dictionaries as [gmap]. The file system and
    the network are an explicit [World] threaded through a small
    state-and-exception monad. *)

From Stdlib Require Import ZArith Ascii String List Lia.
From stdpp Require Import gmap strings list fin_maps.

Local Open Scope Z_scope.

(** ** Python [str] methods used by the program *)

Module Py.

Definition LF : ascii := "010"%char.
Definition CR : ascii := "013"%char.

(** [str.isspace] on one character, for code points below 256:
    TAB, LF, VT, FF, CR, FS, GS, RS, US, SPACE, NEL and NBSP. *)
Definition isspace (c : ascii) : bool :=
  let n := N_of_ascii c in
  ((9 <=? n) && (n <=? 13) || (28 <=? n) && (n <=? 32)
   || (n =? 133) || (n =? 160))%N.

(** [s.lstrip()] *)
Fixpoint lstrip (s : string) : string :=
  match s with
  | EmptyString => EmptyString
  | String c s' => if isspace c then lstrip s' else s
  end.

(** [s.rstrip()] *)
Fixpoint rstrip (s : string) : string :=
  match s with
  | EmptyString => EmptyString
  | String c s' =>
      match rstrip s' with
      | EmptyString => if isspace c then EmptyString else String c EmptyString
      | r => String c r
      end
  end.

(** [s.strip()] *)
Definition strip (s : string) : string := rstrip (lstrip s).

(** [s.rstrip(chars)] for a one-character [chars]. *)
Fixpoint rstrip_char (ch : ascii) (s : string) : string :=
  match s with
  | EmptyString => EmptyString
  | String c s' =>
      match rstrip_char ch s' with
      | EmptyString => if Ascii.eqb c ch then EmptyString else String c EmptyString
      | r => String c r
      end
  end.

(** [s.startswith(p)] *)
Fixpoint startswith (s p : string) {struct p} : bool :=
  match p, s with
  | EmptyString, _ => true
  | String a p', String b s' => Ascii.eqb a b && startswith s' p'
  | String _ _, EmptyString => false
  end.

(** [s[i:]] and [s[:i]] for [0 <= i]. *)
Fixpoint drop (i : nat) (s : string) : string :=
  match i, s with
  | O, _ => s
  | S _, EmptyString => EmptyString
  | S i', String _ s' => drop i' s'
  end.

Fixpoint take (i : nat) (s : string) : string :=
  match i, s with
  | O, _ => EmptyString
  | S _, EmptyString => EmptyString
  | S i', String c s' => String c (take i' s')
  end.

(** [s.endswith(suf)]: the last [len(suf)] characters of [s] are [suf]. *)
Definition endswith (s suf : string) : bool :=
  let n := String.length s in
  let m := String.length suf in
  if (n <? m)%nat then false else String.eqb (drop (n - m) s) suf.

(** [s.rfind(ch)] for a one-character [ch]: the highest index holding
    [ch], or [-1]. *)
Fixpoint rfind (s : string) (ch : ascii) : Z :=
  match s with
  | EmptyString => -1
  | String c s' =>
      let k := rfind s' ch in
      if 0 <=? k then k + 1
      else if Ascii.eqb c ch then 0 else -1
  end.

(** [ch * n] *)
Fixpoint repeat_char (ch : ascii) (n : nat) : string :=
  match n with
  | O => EmptyString
  | S n' => String ch (repeat_char ch n')
  end.

(** [s.replace(old, new)] for a non-empty [old]: scanning from the left,
    every occurrence of [old] that does not overlap an earlier replaced
    one is replaced by [new]. [skip] counts the characters of a matched
    occurrence that are still to be passed over. *)
Fixpoint replace_from (old new : string) (skip : nat) (s : string) : string :=
  match s with
  | EmptyString => EmptyString
  | String c s' =>
      match skip with
      | S k => replace_from old new k s'
      | O =>
          if startswith s old
          then new +:+ replace_from old new (String.length old - 1) s'
          else String c (replace_from old new O s')
      end
  end.

(** For an empty [old], Python inserts [new] before every character and
    at the end. *)
Fixpoint intersperse (new s : string) : string :=
  match s with
  | EmptyString => new
  | String c s' => new +:+ String c (intersperse new s')
  end.

Definition replace (s old new : string) : string :=
  match old with
  | EmptyString => intersperse new s
  | _ => replace_from old new O s
  end.

(** [s.split(sep)] for a one-character [sep]. *)
Fixpoint split (s : string) (sep : ascii) : list string :=
  match s with
  | EmptyString => [EmptyString]
  | String c s' =>
      if Ascii.eqb c sep then EmptyString :: split s' sep
      else match split s' sep with
           | [] => [String c EmptyString]
           | w :: ws => String c w :: ws
           end
  end.

(** [pat in s] *)
Fixpoint contains (s pat : string) : bool :=
  startswith s pat
  || match s with
     | EmptyString => false
     | String _ s' => contains s' pat
     end.

(** [sep.join(parts)] *)
Definition join (sep : string) (parts : list string) : string :=
  String.concat sep parts.

(** Truthiness of a [str]. *)
Definition truthy (s : string) : bool :=
  match s with EmptyString => false | _ => true end.

(** [x or d] where [x] is [None] or a [str] and [d] is a [str]. *)
Definition or_default (x : option string) (d : string) : string :=
  match x with
  | Some s => if truthy s then s else d
  | None => d
  end.

End Py.

(** ** [os.path] on POSIX *)

Module posixpath.

Definition sep : ascii := "/"%char.

(** [os.path.split(p)] *)
Definition split (p : string) : string * string :=
  let i := Z.to_nat (Py.rfind p sep + 1) in
  let head := Py.take i p in
  let tail := Py.drop i p in
  let head :=
    if Py.truthy head
       && negb (String.eqb head (Py.repeat_char sep (String.length head)))
    then Py.rstrip_char sep head
    else head in
  (head, tail).

(** [os.path.join(a, b)] *)
Definition join (a b : string) : string :=
  if Py.startswith b "/" then b
  else if negb (Py.truthy a) || Py.endswith a "/" then a +:+ b
  else a +:+ "/" +:+ b.

End posixpath.

(** ** Module constants *)

Definition version_str : string := "3.0.0".

(** [libstemmer_c_version = '.'.join(version_str.split('.')[0:3])] *)
Definition libstemmer_c_version : string :=
  Eval cbv in Py.join "." (firstn 3 (Py.split version_str "."%char)).

(** ** The world the script runs in *)

(** A file-system node: a text file (its decoded contents) or a directory.
    Paths are looked up verbatim, as the script passes them to the system. *)
Inductive Node :=
| File (content : string)
| Dir.

(** What a URL serves: the archive's bytes and, when they are a well-formed
    archive, its members as (relative path, contents). *)
Record Archive := {
  archive_bytes : list Byte.byte;
  archive_members : option (list (string * string))
}.

Inductive Event :=
| EvFetch (url : string)
| EvOpen (path : string)
| EvExtract.

Record World := {
  fs : gmap string Node;
  remote : gmap string Archive;
  trace : list Event
}.

Inductive Exception :=
| FileNotFoundError (path : string)
| IsADirectoryError (path : string)
| NotADirectoryError (path : string)
| NetworkError (url : string)
| ChecksumMismatchError (expected computed : string)
| ExtractionError.

Inductive Outcome (A : Type) :=
| Returned (a : A)
| Raised (e : Exception).
Arguments Returned {A} a.
Arguments Raised {A} e.

(** Computations: the world is threaded through, and survives an exception. *)
Definition M (A : Type) : Type := World → Outcome A * World.

Global Instance M_ret : MRet M := λ A a w, (Returned a, w).
Global Instance M_bind : MBind M := λ A B f m w,
  match m w with
  | (Returned a, w') => f a w'
  | (Raised e, w') => (Raised e, w')
  end.

Definition raise {A} (e : Exception) : M A := λ w, (Raised e, w).
Definition log (ev : Event) : M unit := λ w,
  (Returned tt, {| fs := fs w; remote := remote w; trace := trace w ++ [ev] |}).
Definition get_fs : M (gmap string Node) := λ w, (Returned (fs w), w).
Definition put_fs (f : gmap string Node) : M unit := λ w,
  (Returned tt, {| fs := f; remote := remote w; trace := trace w |}).
Definition get_remote : M (gmap string Archive) := λ w, (Returned (remote w), w).

(** [os.path.exists(path)] *)
Definition os_path_exists (path : string) : M bool :=
  f ← get_fs; mret (bool_decide (is_Some (f !! path))).

(** Iterating over a file opened in text mode: the lines, each with its
    terminator; CR LF and a lone CR are read as LF (universal newlines). *)
Fixpoint text_lines (s : string) : list string :=
  match s with
  | EmptyString => []
  | String c s' =>
      if Ascii.eqb c Py.LF then String Py.LF "" :: text_lines s'
      else if Ascii.eqb c Py.CR then
        match s' with
        | String c' s'' =>
            if Ascii.eqb c' Py.LF then String Py.LF "" :: text_lines s''
            else String Py.LF "" :: text_lines s'
        | EmptyString => [String Py.LF ""]
        end
      else
        match text_lines s' with
        | [] => [String c ""]
        | l :: ls => String c l :: ls
        end
  end.

(** The positions of the slashes of a path, counted from [i]. *)
Fixpoint slash_indices (s : string) (i : nat) : list nat :=
  match s with
  | EmptyString => []
  | String c s' =>
      (if Ascii.eqb c "/" then [i] else []) ++ slash_indices s' (S i)
  end.

(** The paths a path lies under: what stands before each of its slashes. *)
Definition ancestors (path : string) : list string :=
  List.filter Py.truthy ((λ i, Py.take i path) <$> slash_indices path 0).

Definition is_file (n : option Node) : bool :=
  match n with
  | Some (File _) => true
  | _ => false
  end.

(** Some component on the way to [path] is a regular file. *)
Definition under_file (f : gmap string Node) (path : string) : bool :=
  existsb (λ d, is_file (f !! d)) (ancestors path).

(** What [open] raises for a path that does not exist: a component of the
    path that is a regular file makes it [NotADirectoryError]. *)
Definition missing_error (f : gmap string Node) (path : string) : Exception :=
  if under_file f path then NotADirectoryError path else FileNotFoundError path.

(** [open(path)] followed by reading every line. *)
Definition open_and_read_lines (path : string) : M (list string) :=
  _ ← log (EvOpen path);
  f ← get_fs;
  match f !! path with
  | None => raise (missing_error f path)
  | Some Dir => raise (IsADirectoryError path)
  | Some (File content) => mret (text_lines content)
  end.

(** ** [class LibrarySourceCode] *)

Record LibrarySourceCode := { _directory : string }.

Definition LIBRARY_CORE_DIRS : list string :=
  ["src_c"; "runtime"; "libstemmer"; "include"].
Definition DEFAULT_URI : string :=
  Eval cbv in "https://snowballstem.org/dist/libstemmer_c-" +:+ libstemmer_c_version +:+ ".tar.gz".
Definition DEFAULT_CHECKSUM : string :=
  "d4eca4485f6d3cb4387626a5f508b9b3489d24737525c23ba58026159497a8bc".

(** [LibrarySourceCode()] with the default [directory] argument. *)
Definition default_directory : string :=
  Eval cbv in "libstemmer_c-" +:+ libstemmer_c_version.

Definition manifest_file_path (self : LibrarySourceCode) : string :=
  posixpath.join (_directory self) "mkinc_utf8.mak".

Definition include_directories (self : LibrarySourceCode) : list string :=
  [posixpath.join (_directory self) "include"].

Definition iter_manifest_lines (self : LibrarySourceCode) : M (list string) :=
  open_and_read_lines (manifest_file_path self).

(** [line.strip().replace(' \\', '')] *)
Definition clean_line (line : string) : string :=
  Py.replace (Py.strip line) " \" "".

(** One iteration of the loop of [source_code_paths]. *)
Definition add_line (self : LibrarySourceCode) (paths : gset string)
    (line : string) : gset string :=
  let line := clean_line line in
  let directory := (posixpath.split line).1 in
  if Py.endswith line ".c" && bool_decide (directory ∈ LIBRARY_CORE_DIRS)
  then paths ∪ {[ posixpath.join (_directory self) line ]}
  else paths.

Definition source_code_paths (self : LibrarySourceCode) : M (gset string) :=
  lines ← iter_manifest_lines self;
  mret (foldl (add_line self) ∅ lines).

Definition is_present_on_disk (self : LibrarySourceCode) : M bool :=
  os_path_exists (_directory self).

Definition LIBRARY_SOURCE_CODE : LibrarySourceCode :=
  {| _directory := default_directory |}.

Definition nl (s : string) : string := s +:+ String Py.LF "".

Definition ex_manifest : string :=
  nl "src_c/stem_UTF_8_danish.c \" +:+ nl "src_c/stem_UTF_8_dutch.c"
  +:+ nl "examples/batch_stemmer.c".

Definition ex_world : World :=
  {| fs := {[ "libstemmer_c-3.0.0" := Dir;
              "libstemmer_c-3.0.0/mkinc_utf8.mak" := File ex_manifest ]};
     remote := ∅; trace := [] |}.

(** ** SHA-256 (FIPS 180-4), as computed by [hashlib.sha256(data).hexdigest()] *)

Module Sha256.

Definition add32 (x y : Z) : Z := (x + y) mod 2 ^ 32.
Definition rotr (n x : Z) : Z :=
  Z.lor (Z.shiftr x n) ((Z.shiftl x (32 - n)) mod 2 ^ 32).
Definition shr (n x : Z) : Z := Z.shiftr x n.
Definition not32 (x : Z) : Z := Z.lxor x 0xffffffff.

Definition Ch (x y z : Z) : Z := Z.lxor (Z.land x y) (Z.land (not32 x) z).
Definition Maj (x y z : Z) : Z :=
  Z.lxor (Z.lxor (Z.land x y) (Z.land x z)) (Z.land y z).
Definition Sigma0 (x : Z) : Z := Z.lxor (Z.lxor (rotr 2 x) (rotr 13 x)) (rotr 22 x).
Definition Sigma1 (x : Z) : Z := Z.lxor (Z.lxor (rotr 6 x) (rotr 11 x)) (rotr 25 x).
Definition sigma0 (x : Z) : Z := Z.lxor (Z.lxor (rotr 7 x) (rotr 18 x)) (shr 3 x).
Definition sigma1 (x : Z) : Z := Z.lxor (Z.lxor (rotr 17 x) (rotr 19 x)) (shr 10 x).

(** The first [n] primes, by trial division. *)
Definition is_prime (p : Z) : bool :=
  (2 <=? p) && forallb (λ d, negb (p mod d =? 0)) (seqZ 2 (p - 2)).

Definition first_primes (n : nat) : list Z :=
  firstn n (List.filter is_prime (seqZ 2 310)).

(** The integer cube root of [x] below [2 ^ bits], one bit at a time. *)
Fixpoint cube_root (bits : nat) (x r : Z) : Z :=
  match bits with
  | O => r
  | S b =>
      let r' := r + 2 ^ Z.of_nat b in
      cube_root b x (if r' * r' * r' <=? x then r' else r)
  end.

(** The round constants: the first 32 bits of the fractional parts of the
    cube roots of the first 64 primes. *)
Definition K : list Z :=
  Eval vm_compute in
    map (λ p, cube_root 36 (p * 2 ^ 96) 0 mod 2 ^ 32) (first_primes 64).

(** The eight working variables, and the running hash value. *)
Record Hash := mkHash { h0 : Z; h1 : Z; h2 : Z; h3 : Z; h4 : Z; h5 : Z; h6 : Z; h7 : Z }.

(** The initial hash value: the first 32 bits of the fractional parts of
    the square roots of the first 8 primes. *)
Definition frac_sqrt (p : Z) : Z := Z.sqrt (p * 2 ^ 64) mod 2 ^ 32.

Definition H_init : Hash :=
  Eval vm_compute in
    match map frac_sqrt (first_primes 8) with
    | [a; b; c; d; e; f; g; h] => mkHash a b c d e f g h
    | _ => mkHash 0 0 0 0 0 0 0 0
    end.

(** Padding: a 1 bit, zeros up to 56 mod 64 bytes, then the bit length
    as a 64-bit big-endian number. *)
Definition be_bytes (n : nat) (x : Z) : list Z :=
  map (λ k, (Z.shiftr x (8 * Z.of_nat k)) mod 256) (rev (seq 0 n)).

Definition pad (msg : list Z) : list Z :=
  let len := Z.of_nat (length msg) in
  let zeros := Z.to_nat ((55 - len) mod 64) in
  msg ++ [0x80] ++ repeat 0 zeros ++ be_bytes 8 ((8 * len) mod 2 ^ 64).

(** Big-endian 32-bit words of a byte sequence. *)
Fixpoint be_words (l : list Z) : list Z :=
  match l with
  | b3 :: b2 :: b1 :: b0 :: r =>
      (b3 * 2 ^ 24 + b2 * 2 ^ 16 + b1 * 2 ^ 8 + b0) :: be_words r
  | _ => []
  end.

(** The padded message cut into blocks of 16 words. *)
Fixpoint blocks (fuel : nat) (ws : list Z) : list (list Z) :=
  match fuel, ws with
  | S fuel', _ :: _ => firstn 16 ws :: blocks fuel' (skipn 16 ws)
  | _, _ => []
  end.

(** The message schedule, most recent word first. *)
Fixpoint schedule (n : nat) (rev_w : list Z) : list Z :=
  match n with
  | O => rev_w
  | S n' =>
      let w := add32 (add32 (sigma1 (nth 1 rev_w 0)) (nth 6 rev_w 0))
                     (add32 (sigma0 (nth 14 rev_w 0)) (nth 15 rev_w 0)) in
      schedule n' (w :: rev_w)
  end.

Definition round (s : Hash) (kw : Z * Z) : Hash :=
  let '(k, w) := kw in
  let T1 := add32 (add32 (add32 (h7 s) (Sigma1 (h4 s))) (Ch (h4 s) (h5 s) (h6 s)))
                  (add32 k w) in
  let T2 := add32 (Sigma0 (h0 s)) (Maj (h0 s) (h1 s) (h2 s)) in
  mkHash (add32 T1 T2) (h0 s) (h1 s) (h2 s) (add32 (h3 s) T1) (h4 s) (h5 s) (h6 s).

Definition compress (H : Hash) (block : list Z) : Hash :=
  let W := rev (schedule 48 (rev block)) in
  let s := fold_left round (combine K W) H in
  mkHash (add32 (h0 H) (h0 s)) (add32 (h1 H) (h1 s)) (add32 (h2 H) (h2 s))
         (add32 (h3 H) (h3 s)) (add32 (h4 H) (h4 s)) (add32 (h5 H) (h5 s))
         (add32 (h6 H) (h6 s)) (add32 (h7 H) (h7 s)).

Definition sha256 (data : list Byte.byte) : Hash :=
  let ws := be_words (pad (map (λ b, Z.of_N (Byte.to_N b)) data)) in
  fold_left compress (blocks (length ws) ws) H_init.

Definition hexchars : list ascii :=
  ["0"; "1"; "2"; "3"; "4"; "5"; "6"; "7"; "8"; "9"; "a"; "b"; "c"; "d"; "e"; "f"]%char.

Definition hexdigit (d : Z) : ascii := nth (Z.to_nat (d mod 16)) hexchars "0"%char.

Definition hex_word (w : Z) : list ascii :=
  map (λ k, hexdigit (Z.shiftr w (4 * k))) [7; 6; 5; 4; 3; 2; 1; 0].

(** The digest as 64 lowercase hexadecimal digits. *)
Definition hexdigest (H : Hash) : string :=
  string_of_list_ascii
    (flat_map hex_word [h0 H; h1 H; h2 H; h3 H; h4 H; h5 H; h6 H; h7 H]).

End Sha256.

(** ** The download helper *)

(** Modelled from the spec: the module [tarballfetcher] and its function
    [download_and_extract_tarball], which [LibrarySourceCode.download]
    imports and which is not among the sources. It is the sequence of the
    Archive Fetcher (4.1), the Integrity Verifier (4.2) and the Archive
    Extractor (4.3), in the order the Orchestrator (4.4) gives them. The
    source hands the helper a URL and a checksum and no directory, so the
    archive is unpacked where the script runs and its members carry their
    own paths. The Fetcher's temporary file is not represented. *)
Module tarballfetcher.

(** Modelled from the spec: the Archive Fetcher (4.1) of the missing
    [tarballfetcher]: retrieve the full byte content served at [url], or
    signal a NetworkError. *)
Definition fetch (url : string) : M Archive :=
  _ ← log (EvFetch url);
  r ← get_remote;
  match r !! url with
  | None => raise (NetworkError url)
  | Some a => mret a
  end.

Definition lower_char (c : ascii) : ascii :=
  let n := N_of_ascii c in
  if ((65 <=? n) && (n <=? 90)
      || (192 <=? n) && (n <=? 222) && negb (n =? 215))%N
  then ascii_of_N (n + 32) else c.

Fixpoint lower (s : string) : string :=
  match s with
  | EmptyString => EmptyString
  | String c s' => String (lower_char c) (lower s')
  end.

(** Modelled from the spec: the Integrity Verifier (4.2) of the missing
    [tarballfetcher]: SHA-256 over the fetched bytes, compared
    case-insensitively with the expected digest; a mismatch carries both
    digests. *)
Definition verify (data : list Byte.byte) (expected : string) : M unit :=
  let computed := Sha256.hexdigest (Sha256.sha256 data) in
  if String.eqb (lower computed) (lower expected) then mret tt
  else raise (ChecksumMismatchError expected computed).

(** A member path that would leave the target directory. *)
Definition escapes (rel : string) : bool :=
  Py.startswith rel "/" || bool_decide (".." ∈ Py.split rel "/"%char).

Definition make_directory (f : gmap string Node) (d : string) : gmap string Node :=
  match f !! d with
  | None => <[d := Dir]> f
  | Some _ => f
  end.

(** One member written at its own path, under directories made as needed. *)
Definition write_member (f : gmap string Node) (m : string * string)
    : gmap string Node :=
  <[m.1 := File m.2]> (foldl make_directory f (ancestors m.1)).

(** Modelled from the spec: the Archive Extractor (4.3) of the missing
    [tarballfetcher]: unpack the verified archive, creating the directories
    its members name; a malformed archive or an escaping member is an
    ExtractionError and changes nothing. *)
Definition extract (a : Archive) : M unit :=
  _ ← log EvExtract;
  match archive_members a with
  | None => raise ExtractionError
  | Some members =>
      if existsb escapes (members.*1) then raise ExtractionError
      else
        f ← get_fs;
        put_fs (foldl write_member f members)
  end.

(** Modelled from the spec: [tarballfetcher.download_and_extract_tarball],
    missing from the sources: Fetcher, then Verifier on the fetched bytes,
    then Extractor (4.4). *)
Definition download_and_extract_tarball (url expected_sha256 : string) : M unit :=
  a ← fetch url;
  _ ← verify (archive_bytes a) expected_sha256;
  extract a.

End tarballfetcher.

(** [LibrarySourceCode.download(url=None, checksum=None)] *)
Definition download (self : LibrarySourceCode) (url checksum : option string) : M unit :=
  tarballfetcher.download_and_extract_tarball
    (Py.or_default url DEFAULT_URI)
    (Py.or_default checksum DEFAULT_CHECKSUM).

(** ** Module level: the extension to build *)

(** The value of [os.environ.get(name, False)]. *)
Inductive EnvValue :=
| EnvStr (s : string)
| EnvFalse.

Definition environ_get (environ : gmap string string) (name : string)
    (default : EnvValue) : EnvValue :=
  match environ !! name with
  | Some s => EnvStr s
  | None => default
  end.

Definition env_truthy (v : EnvValue) : bool :=
  match v with
  | EnvStr s => Py.truthy s
  | EnvFalse => false
  end.

Definition SYSTEM_LIBSTEMMER (environ : gmap string string) : EnvValue :=
  environ_get environ "PYSTEMMER_SYSTEM_LIBSTEMMER" EnvFalse.

(** [setuptools.Extension(name, sources, libraries=..., include_dirs=...)] *)
Record Extension := {
  ext_name : string;
  sources : list string;
  libraries : list string;
  include_dirs : list string
}.

(** The guard of the vendored branch:
    [if not LIBRARY_SOURCE_CODE.is_present_on_disk(): LIBRARY_SOURCE_CODE.download()] *)
Definition acquire (self : LibrarySourceCode) : M unit :=
  present ← is_present_on_disk self;
  if negb present then download self None None else mret tt.

(** The extension of the first branch: link against the system library. *)
Definition system_extension : Extension :=
  {| ext_name := "Stemmer"; sources := ["src/Stemmer.pyx"];
     libraries := ["stemmer"]; include_dirs := [] |}.

(** The extension of the second branch, built from the resolved paths. *)
Definition vendored_extension (paths : gset string) : Extension :=
  {| ext_name := "Stemmer";
     sources := ["src/Stemmer.pyx"] ++ elements paths;
     libraries := [];
     include_dirs := include_directories LIBRARY_SOURCE_CODE |}.

Definition vendored_build : M Extension :=
  _ ← acquire LIBRARY_SOURCE_CODE;
  paths ← source_code_paths LIBRARY_SOURCE_CODE;
  mret (vendored_extension paths).

Definition C_EXTENSION (environ : gmap string string) : M Extension :=
  if env_truthy (SYSTEM_LIBSTEMMER environ) then mret system_extension
  else vendored_build.

(** The two link modes of the build configuration, read off the extension:
    linking against a library by name, or compiling the vendored sources. *)
Inductive LinkMode := VENDORED | SYSTEM_LIBRARY.

Definition link_mode (e : Extension) : LinkMode :=
  match libraries e with
  | [] => VENDORED
  | _ => SYSTEM_LIBRARY
  end.

(** ** [class BootstrapCommand] *)

Record BootstrapCommand := {
  libstemmer_url : string;
  libstemmer_sha256 : string
}.

Definition initialize_options : BootstrapCommand :=
  {| libstemmer_url := DEFAULT_URI; libstemmer_sha256 := DEFAULT_CHECKSUM |}.

(** The command line sets the attribute of every option given on it
    ([--libstemmer-url=], [--libstemmer-sha256=]). *)
Definition parse_options (url sha256 : option string) (cmd : BootstrapCommand)
    : BootstrapCommand :=
  {| libstemmer_url := default (libstemmer_url cmd) url;
     libstemmer_sha256 := default (libstemmer_sha256 cmd) sha256 |}.

Definition finalize_options (cmd : BootstrapCommand) : BootstrapCommand := cmd.

Definition run (cmd : BootstrapCommand) : M unit :=
  download LIBRARY_SOURCE_CODE (Some (libstemmer_url cmd)) (Some (libstemmer_sha256 cmd)).

(** The life cycle of the command: initialise, parse, finalise, run. *)
Definition bootstrap (url sha256 : option string) : M unit :=
  run (finalize_options (parse_options url sha256 initialize_options)).

(** [python setup.py bootstrap ...]: the module body, then the command. *)
Definition setup_py_bootstrap (environ : gmap string string)
    (url sha256 : option string) : M unit :=
  _ ← C_EXTENSION environ;
  bootstrap url sha256.

(** The network requests recorded in a trace. *)
Definition is_fetch (ev : Event) : bool :=
  match ev with EvFetch _ => true | _ => false end.
Definition fetches (t : list Event) : list Event := List.filter is_fetch t.

Definition dir_only_world : World :=
  {| fs := {[ "libstemmer_c-3.0.0" := Dir ]}; remote := ∅; trace := [] |}.

(** A regular file stands where the distribution directory should be. *)
Definition file_only_world : World :=
  {| fs := {[ "libstemmer_c-3.0.0" := File "" ]}; remote := ∅; trace := [] |}.

(** ** Definitions used by the statements *)

Abbreviation chars := list_ascii_of_string.

(** The raw cut of [os.path.split] before the head is tidied up. *)
Definition cut_index (p : string) : nat := Z.to_nat (Py.rfind p posixpath.sep + 1).

Definition logged (ev : Event) (w : World) : World :=
  {| fs := fs w; remote := remote w; trace := trace w ++ [ev] |}.

(** The filter of [source_code_paths] on one manifest line. *)
Definition keeps (line : string) : bool :=
  Py.endswith (clean_line line) ".c"
  && bool_decide ((posixpath.split (clean_line line)).1 ∈ LIBRARY_CORE_DIRS).

Definition marker : string := " \".

Definition toggle_name : string := "PYSTEMMER_SYSTEM_LIBSTEMMER".

(** The world after a successful extraction. *)
Definition extracted (members : list (string * string)) (w : World) : World :=
  {| fs := foldl tarballfetcher.write_member (fs w) members;
     remote := remote w;
     trace := trace w |}.

Definition served_world : World :=
  {| fs := {[ "libstemmer_c-3.0.0" := Dir ]};
     remote := {[ DEFAULT_URI :=
                    {| archive_bytes := list_byte_of_string "abc";
                       archive_members := Some [] |} ]};
     trace := [] |}.

(** ** Definitions used by the further properties *)

(** [libstemmer_c_version] as a function of the package version:
    ['.'.join(version_str.split('.')[0:3])]. *)
Definition libstemmer_c_version_of (v : string) : string :=
  Py.join "." (firstn 3 (Py.split v "."%char)).

(** The two tests of [source_code_paths] on a cleaned line. *)
Definition accepts (c : string) : bool :=
  Py.endswith c ".c" && bool_decide ((posixpath.split c).1 ∈ LIBRARY_CORE_DIRS).

(** The sample manifest with its entries in another order, one repeated,
    one indented, one ended by CR LF and the last unterminated. *)
Definition shuffled_manifest : string :=
  "src_c/stem_UTF_8_dutch.c \" +:+ String Py.CR (String Py.LF "")
  +:+ nl "examples/batch_stemmer.c" +:+ nl "  src_c/stem_UTF_8_danish.c"
  +:+ "src_c/stem_UTF_8_dutch.c".

Definition world_with_manifest (content : string) : World :=
  {| fs := {[ "libstemmer_c-3.0.0" := Dir;
              "libstemmer_c-3.0.0/mkinc_utf8.mak" := File content ]};
     remote := ∅; trace := [] |}.

(** Nothing on disk; only a mirror serves an archive. *)
Definition mirror_world : World :=
  {| fs := ∅;
     remote := {[ "https://mirror.example/libstemmer_c.tar.gz" :=
                    {| archive_bytes := list_byte_of_string "abc";
                       archive_members := Some [] |} ]};
     trace := [] |}.

(** A text without a line break. *)
Definition break_free (s : string) : Prop :=
  (Py.LF ∉ chars s) ∧ (Py.CR ∉ chars s).

(** The lists file iteration yields: lines that are each a text without
    line breaks and one newline, then at most one last line that lacks the
    newline and is not empty. *)
Definition yielded_lines (lines : list string) : Prop :=
  ∃ bodies last,
    lines = (nl <$> bodies) ++ last
    ∧ Forall break_free bodies
    ∧ (last = [] ∨ ∃ l, last = [l] ∧ l ≠ "" ∧ break_free l).

(** * Properties *)

(** ** The library functions on sample inputs *)

Example split_ex1 : posixpath.split "src_c/stem_UTF_8_danish.c" = ("src_c", "stem_UTF_8_danish.c").
Proof. reflexivity. Qed.
Example split_ex2 : posixpath.split "/usr//lib///x.c" = ("/usr//lib", "x.c").
Proof. reflexivity. Qed.
Example split_ex3 : posixpath.split "//x" = ("//", "x").
Proof. reflexivity. Qed.
Example split_ex4 : posixpath.split "x" = ("", "x").
Proof. reflexivity. Qed.
Example replace_ex1 : Py.replace "a \b \ \\c" " \" "" = "ab\c".
Proof. reflexivity. Qed.
Example replace_ex2 : Py.replace "aaa" "aa" "b" = "ba".
Proof. reflexivity. Qed.
Example strip_ex : Py.strip (String Py.LF "  a b 	" +:+ String Py.LF "") = "a b".
Proof. reflexivity. Qed.
Example split_ex : Py.split "3.0.0.1" "."%char = ["3"; "0"; "0"; "1"].
Proof. reflexivity. Qed.
Example join_ex : posixpath.join "d" "src_c/a.c" = "d/src_c/a.c".
Proof. reflexivity. Qed.
Example endswith_ex : Py.endswith "a.c" ".c" = true /\ Py.endswith "c" ".c" = false.
Proof. split; reflexivity. Qed.
Example split_table :
  posixpath.split <$> ["a//b"; "/"; ""; "///"; "a/"; "/a"; "src_c//x.c"; "a/b/c.c"; "//a//"]
  = [("a", "b"); ("/", ""); ("", ""); ("///", ""); ("a", ""); ("/", "a");
     ("src_c", "x.c"); ("a/b", "c.c"); ("//a", "")].
Proof. reflexivity. Qed.
Example join_table :
  [posixpath.join "d" "x"; posixpath.join "d/" "x"; posixpath.join "" "x";
   posixpath.join "d" "/x"; posixpath.join "d" ""]
  = ["d/x"; "d/x"; "x"; "/x"; "d/"].
Proof. reflexivity. Qed.
Example replace_rejoins : Py.replace "  \ \\ \" " \" "" = " \".
Proof. reflexivity. Qed.
Example replace_empty_old : Py.replace "ab" "" "-" = "-a-b-".
Proof. reflexivity. Qed.
Example strip_separators :
  Py.strip (String "028" " a " +:+ String "133" (String "160" "")) = "a".
Proof. reflexivity. Qed.
Example text_lines_newlines :
  text_lines ("a" +:+ String Py.CR "b" +:+ String Py.CR (String Py.LF "c")
              +:+ String Py.LF (String Py.LF "d"))
  = [nl "a"; nl "b"; nl "c"; nl ""; "d"].
Proof. reflexivity. Qed.
Example ancestors_table :
  ancestors <$> ["libstemmer_c-3.0.0/mkinc_utf8.mak"; "a/b/c"; "/x"; "x"]
  = [["libstemmer_c-3.0.0"]; ["a"; "a/b"]; []; []].
Proof. reflexivity. Qed.
Example missing_error_table :
  missing_error (fs file_only_world) "libstemmer_c-3.0.0/mkinc_utf8.mak"
    = NotADirectoryError "libstemmer_c-3.0.0/mkinc_utf8.mak"
  ∧ missing_error (fs dir_only_world) "libstemmer_c-3.0.0/mkinc_utf8.mak"
    = FileNotFoundError "libstemmer_c-3.0.0/mkinc_utf8.mak"
  ∧ missing_error ∅ "libstemmer_c-3.0.0/mkinc_utf8.mak"
    = FileNotFoundError "libstemmer_c-3.0.0/mkinc_utf8.mak".
Proof. repeat split. Qed.
Example write_member_makes_directories :
  tarballfetcher.write_member ∅ ("d/e/f.c", "x")
  = {[ "d" := Dir; "d/e" := Dir; "d/e/f.c" := File "x" ]}.
Proof. vm_compute. reflexivity. Qed.
Example sha256_four_blocks :
  Sha256.hexdigest (Sha256.sha256 (repeat Byte.x61 200)) =
  "c2a908d98f5df987ade41b5fce213067efbcc21ef2240212a41e54b5e7c28ae5".
Proof. vm_compute. reflexivity. Qed.
Example sha256_empty :
  Sha256.hexdigest (Sha256.sha256 []) =
  "e3b0c44298fc1c149afbf4c8996fb92427ae41e4649b934ca495991b7852b855".
Proof. vm_compute. reflexivity. Qed.
Example sha256_abc :
  Sha256.hexdigest (Sha256.sha256 (list_byte_of_string "abc")) =
  "ba7816bf8f01cfea414140de5dae2223b00361a396177a9cb410ff61f20015ad".
Proof. vm_compute. reflexivity. Qed.
Example sha256_two_blocks :
  Sha256.hexdigest (Sha256.sha256 (list_byte_of_string
    "abcdbcdecdefdefgefghfghighijhijkijkljklmklmnlmnomnopnopq")) =
  "248d6a61d20638b8e5c026930c3e6039a33ce45964ff2167f6ecedd419db06c1".
Proof. vm_compute. reflexivity. Qed.

(** ** Facts about the string functions *)

Lemma chars_app (a b : string) : chars (a +:+ b) = chars a ++ chars b.
Proof. induction a as [|c a IH]; simpl; [done | by rewrite IH]. Qed.

Lemma chars_inj (a b : string) : chars a = chars b → a = b.
Proof.
  intros H. rewrite <- (string_of_list_ascii_of_string a), <- (string_of_list_ascii_of_string b).
  by rewrite H.
Qed.

Lemma chars_length (s : string) : length (chars s) = String.length s.
Proof. induction s; simpl; congruence. Qed.

Lemma chars_take (i : nat) (s : string) : chars (Py.take i s) = take i (chars s).
Proof. revert s; induction i as [|i IH]; intros [|c s]; simpl; try done. by rewrite IH. Qed.

Lemma chars_drop (i : nat) (s : string) : chars (Py.drop i s) = drop i (chars s).
Proof. revert s; induction i as [|i IH]; intros [|c s]; simpl; try done. Qed.

Lemma take_drop_string (i : nat) (s : string) : Py.take i s +:+ Py.drop i s = s.
Proof. apply chars_inj. by rewrite chars_app, chars_take, chars_drop, take_drop. Qed.

(** [endswith] holds exactly of the strings that have [suf] as a suffix. *)
Lemma endswith_suffix (s suf : string) :
  Py.endswith s suf = true ↔ chars suf `suffix_of` chars s.
Proof.
  unfold Py.endswith. rewrite <- !chars_length.
  destruct (Nat.ltb_spec (length (chars s)) (length (chars suf))) as [Hlt|Hge].
  - split; [done|]. intros Hs%suffix_length. lia.
  - rewrite String.eqb_eq. split.
    + intros H. exists (take (length (chars s) - length (chars suf)) (chars s)).
      apply (f_equal chars) in H. rewrite chars_drop in H.
      rewrite <- H at 2. by rewrite take_drop.
    + intros [k Hk]. apply chars_inj. rewrite chars_drop, Hk, length_app.
      replace (length k + length (chars suf) - length (chars suf))%nat with (length k) by lia.
      by rewrite drop_app_length.
Qed.

Lemma endswith_app (s suf : string) :
  Py.endswith s suf = true ↔ ∃ p, s = p +:+ suf.
Proof.
  rewrite endswith_suffix. split.
  - intros [k Hk]. exists (string_of_list_ascii k). apply chars_inj.
    by rewrite chars_app, list_ascii_of_string_of_list_ascii.
  - intros [p ->]. exists (chars p). by rewrite chars_app.
Qed.

(** [rfind] returns [-1] exactly when the character does not occur;
    otherwise it splits the string at the last occurrence. *)
Lemma rfind_spec (s : string) (ch : ascii) :
  (Py.rfind s ch = -1 ∧ ch ∉ chars s)
  ∨ (∃ pre post, 0 <= Py.rfind s ch ∧ Py.rfind s ch = Z.of_nat (length pre)
       ∧ chars s = pre ++ ch :: post ∧ ch ∉ post).
Proof.
  induction s as [|c s IH]; simpl.
  - left. split; [done | apply not_elem_of_nil].
  - destruct IH as [[-> Hnot] | (pre & post & Hge & Hk & Hs & Hpost)].
    + simpl. destruct (Ascii.eqb_spec c ch) as [->|Hne].
      * right. exists [], (chars s). simpl. by repeat split.
      * left. split; [done|]. rewrite not_elem_of_cons. by split; [congruence|].
    + right. exists (c :: pre), post.
      destruct (Z.leb_spec 0 (Py.rfind s ch)); [|lia].
      rewrite Hs. simpl. repeat split; try lia. done.
Qed.

Lemma split_snd (p : string) : (posixpath.split p).2 = Py.drop (cut_index p) p.
Proof. reflexivity. Qed.

Lemma split_cut (p : string) :
  (posixpath.sep ∉ chars (Py.drop (cut_index p) p))
  ∧ (Py.take (cut_index p) p = ""
     ∨ ∃ h, chars (Py.take (cut_index p) p) = h ++ [posixpath.sep]).
Proof.
  unfold cut_index.
  destruct (rfind_spec p posixpath.sep) as [[-> Hnot] | (pre & post & Hge & Hk & Hs & Hpost)].
  - simpl. split; [done | by left].
  - rewrite Hk. replace (Z.to_nat (Z.of_nat (length pre) + 1)) with (S (length pre)) by lia.
    rewrite chars_drop, chars_take, Hs.
    replace (pre ++ posixpath.sep :: post) with ((pre ++ [posixpath.sep]) ++ post)
      by (by rewrite <- app_assoc).
    assert (length (pre ++ [posixpath.sep]) = S (length pre)) as Hl
      by (rewrite length_app; simpl; lia).
    rewrite <- Hl, drop_app_length, take_app_length.
    split; [done | right; by exists pre].
Qed.

(** A two-character suffix free of ['/'] lies within the file name. *)
Lemma suffix2_after_sep (a b s : ascii) (h t k : list ascii) :
  s ≠ a → s ≠ b → k ++ [a; b] = h ++ [s] ++ t → [a; b] `suffix_of` t.
Proof.
  intros Ha Hb H. apply (f_equal reverse) in H.
  rewrite !reverse_app in H. simpl in H.
  destruct (reverse t) as [|x [|y r]] eqn:Ht; simpl in H.
  - congruence.
  - congruence.
  - injection H as -> -> _. exists (reverse r).
    rewrite <- (reverse_involutive t), Ht. rewrite !reverse_cons.
    by rewrite <- app_assoc.
Qed.

(** [line.endswith('.c')] tests the file-name component. *)
Lemma endswith_c_filename (line : string) :
  Py.endswith line ".c" = Py.endswith (posixpath.split line).2 ".c".
Proof.
  apply eq_true_iff_eq. rewrite split_snd, !endswith_suffix.
  destruct (split_cut line) as [Hsep Hhead].
  rewrite <- (take_drop_string (cut_index line) line) at 1. rewrite chars_app.
  split.
  - intros [k Hk]. destruct Hhead as [He | [h Hh]].
    { rewrite He in Hk. by exists k. }
    rewrite Hh in Hk. rewrite <- app_assoc in Hk.
    eapply (suffix2_after_sep _ _ posixpath.sep h _ k); [done | done | ].
    symmetry. exact Hk.
  - intros Hs. etrans; [exact Hs | by apply suffix_app_r].
Qed.

(** ** Running the resolver *)

Lemma add_line_eq (self : LibrarySourceCode) (paths : gset string) (line : string) :
  add_line self paths line =
  if keeps line then paths ∪ {[ posixpath.join (_directory self) (clean_line line) ]}
  else paths.
Proof. reflexivity. Qed.

Lemma elem_of_foldl_add_line (self : LibrarySourceCode) (lines : list string)
    (paths : gset string) (p : string) :
  p ∈ foldl (add_line self) paths lines ↔
  p ∈ paths ∨ ∃ line, line ∈ lines ∧ keeps line = true
                      ∧ p = posixpath.join (_directory self) (clean_line line).
Proof.
  revert paths. induction lines as [|l lines IH]; intros paths; simpl.
  - split; [by left|]. intros [H | (line & Hin & _)]; [done|]. by apply elem_of_nil in Hin.
  - rewrite IH, add_line_eq. split.
    + intros [H | (line & Hin & Hk & Hp)].
      * destruct (keeps l) eqn:Hl; [|by left].
        apply elem_of_union in H as [H | H%elem_of_singleton]; [by left|].
        right. exists l. split; [apply elem_of_cons; by left | done].
      * right. exists line. split; [apply elem_of_cons; by right | done].
    + intros [H | (line & Hin & Hk & Hp)].
      * left. destruct (keeps l); [apply elem_of_union; by left | done].
      * apply elem_of_cons in Hin as [-> | Hin].
        -- left. rewrite Hk. apply elem_of_union. right. by apply elem_of_singleton.
        -- right. by exists line.
Qed.

Lemma source_code_paths_present (self : LibrarySourceCode) (w : World) (content : string) :
  fs w !! manifest_file_path self = Some (File content) →
  source_code_paths self w =
    (Returned (foldl (add_line self) ∅ (text_lines content)),
     logged (EvOpen (manifest_file_path self)) w).
Proof.
  intros H. unfold source_code_paths, iter_manifest_lines, open_and_read_lines.
  unfold mbind, M_bind, log, get_fs. simpl. by rewrite H.
Qed.

Lemma source_code_paths_absent (self : LibrarySourceCode) (w : World) :
  fs w !! manifest_file_path self = None →
  source_code_paths self w =
    (Raised (missing_error (fs w) (manifest_file_path self)),
     logged (EvOpen (manifest_file_path self)) w).
Proof.
  intros H. unfold source_code_paths, iter_manifest_lines, open_and_read_lines.
  unfold mbind, M_bind, log, get_fs, raise. cbn [fs]. by rewrite H.
Qed.

(** Under a directory of its own, a missing manifest is simply not found. *)
Lemma missing_error_default (f : gmap string Node) :
  missing_error f (manifest_file_path LIBRARY_SOURCE_CODE) =
  if is_file (f !! "libstemmer_c-3.0.0")
  then NotADirectoryError "libstemmer_c-3.0.0/mkinc_utf8.mak"
  else FileNotFoundError "libstemmer_c-3.0.0/mkinc_utf8.mak".
Proof.
  unfold missing_error, under_file.
  change (ancestors (manifest_file_path LIBRARY_SOURCE_CODE)) with ["libstemmer_c-3.0.0"].
  cbn [existsb]. by rewrite orb_false_r.
Qed.

(** C1. Manifest resolution is an exact filter: when the manifest is
    readable, the resolver returns exactly the set of the paths "distribution
    directory joined with the cleaned line", over the manifest lines whose
    file-name component ends with [.c] and whose directory component is one
    of [src_c], [runtime], [libstemmer], [include]; nothing else is in the
    set. For the manifest of the three lines [src_c/stem_UTF_8_danish.c \],
    [src_c/stem_UTF_8_dutch.c] and [examples/batch_stemmer.c], the set holds
    exactly the two [src_c] paths. *)
Theorem resolve_exact_filter (self : LibrarySourceCode) (w : World) (content : string) :
  fs w !! manifest_file_path self = Some (File content) →
  ∃ resolved : gset string,
    (source_code_paths self w).1 = Returned resolved
    ∧ (∀ p, p ∈ resolved ↔
         ∃ line, line ∈ text_lines content
           ∧ Py.endswith (posixpath.split (clean_line line)).2 ".c" = true
           ∧ (posixpath.split (clean_line line)).1 ∈ LIBRARY_CORE_DIRS
           ∧ p = posixpath.join (_directory self) (clean_line line))
    ∧ (content = ex_manifest →
       resolved = {[ posixpath.join (_directory self) "src_c/stem_UTF_8_danish.c";
                     posixpath.join (_directory self) "src_c/stem_UTF_8_dutch.c" ]}).
Proof.
  intros H. exists (foldl (add_line self) ∅ (text_lines content)).
  rewrite (source_code_paths_present _ _ _ H).
  split; [reflexivity|]. split.
  - intros p. rewrite elem_of_foldl_add_line. split.
    + intros [H0 | (line & Hin & Hk & Hp)]; [by apply elem_of_empty in H0|].
      exists line. unfold keeps in Hk. apply andb_true_iff in Hk as [Hc Hd].
      rewrite <- endswith_c_filename. apply bool_decide_eq_true in Hd. done.
    + intros (line & Hin & Hc & Hd & Hp). right. exists line.
      split; [done|]. split; [|done]. unfold keeps.
      rewrite endswith_c_filename, Hc. simpl. by apply bool_decide_eq_true.
  - intros ->.
    replace (text_lines ex_manifest) with
      [nl "src_c/stem_UTF_8_danish.c \"; nl "src_c/stem_UTF_8_dutch.c";
       nl "examples/batch_stemmer.c"] by (vm_compute; reflexivity).
    simpl. rewrite !add_line_eq.
    replace (keeps (nl "src_c/stem_UTF_8_danish.c \")) with true by (vm_compute; reflexivity).
    replace (keeps (nl "src_c/stem_UTF_8_dutch.c")) with true by (vm_compute; reflexivity).
    replace (keeps (nl "examples/batch_stemmer.c")) with false by (vm_compute; reflexivity).
    replace (clean_line (nl "src_c/stem_UTF_8_danish.c \")) with "src_c/stem_UTF_8_danish.c"
      by (vm_compute; reflexivity).
    replace (clean_line (nl "src_c/stem_UTF_8_dutch.c")) with "src_c/stem_UTF_8_dutch.c"
      by (vm_compute; reflexivity).
    by rewrite (left_id_L ∅ (∪)).
Qed.

Lemma resolve_exact_filter_witness :
  ∃ resolved : gset string,
    (source_code_paths LIBRARY_SOURCE_CODE ex_world).1 = Returned resolved
    ∧ (∀ p, p ∈ resolved ↔
         ∃ line, line ∈ text_lines ex_manifest
           ∧ Py.endswith (posixpath.split (clean_line line)).2 ".c" = true
           ∧ (posixpath.split (clean_line line)).1 ∈ LIBRARY_CORE_DIRS
           ∧ p = posixpath.join (_directory LIBRARY_SOURCE_CODE) (clean_line line))
    ∧ (ex_manifest = ex_manifest →
       resolved = {[ posixpath.join (_directory LIBRARY_SOURCE_CODE) "src_c/stem_UTF_8_danish.c";
                     posixpath.join (_directory LIBRARY_SOURCE_CODE) "src_c/stem_UTF_8_dutch.c" ]}).
Proof.
  apply (resolve_exact_filter LIBRARY_SOURCE_CODE ex_world ex_manifest).
  vm_compute. reflexivity.
Defined.

(** ** The continuation marker *)

Lemma startswith_marker_app (c : ascii) (a b : string) :
  Py.startswith (String c (a +:+ marker +:+ b)) marker = Py.startswith (String c a) marker.
Proof.
  unfold marker. cbn [Py.startswith]. destruct (Ascii.eqb " " c); [|done].
  destruct a as [|d a]; [done|].
  change (String d a +:+ " \" +:+ b) with (String d (a +:+ " \" +:+ b)).
  cbn [Py.startswith andb]. by rewrite !andb_true_r.
Qed.

Lemma startswith_marker_nonempty (c : ascii) (a : string) :
  Py.startswith (String c a) marker = true → (1 <= String.length a)%nat.
Proof.
  unfold marker. cbn [Py.startswith]. destruct (Ascii.eqb " " c); [|done].
  destruct a; simpl; [done | lia].
Qed.

Lemma replace_from_marker_app (a b : string) (k : nat) :
  (k <= String.length a)%nat →
  Py.replace_from marker "" k (a +:+ marker +:+ b) =
  Py.replace_from marker "" k a +:+ Py.replace_from marker "" 0 b.
Proof.
  revert k. induction a as [|c a IH]; intros k Hk.
  - simpl in Hk. assert (k = 0%nat) as -> by lia. reflexivity.
  - destruct k as [|k].
    + change (String c a +:+ marker +:+ b) with (String c (a +:+ marker +:+ b)).
      cbn [Py.replace_from]. rewrite startswith_marker_app.
      destruct (Py.startswith (String c a) marker) eqn:Hp.
      * apply startswith_marker_nonempty in Hp. simpl. apply IH. simpl. lia.
      * simpl. by rewrite IH by lia.
    + simpl. apply IH. simpl in Hk. lia.
Qed.

(** Every occurrence of the marker, wherever it stands, is removed. *)
Lemma replace_marker_app (a b : string) :
  Py.replace (a +:+ marker +:+ b) marker "" =
  Py.replace a marker "" +:+ Py.replace b marker "".
Proof. apply replace_from_marker_app. lia. Qed.

(** A string without the marker is left alone. *)
Lemma replace_marker_free (s : string) :
  Py.contains s marker = false → Py.replace s marker "" = s.
Proof.
  unfold Py.replace, marker. induction s as [|c s IH]; [done|].
  intros H. cbn [Py.contains] in H. apply orb_false_iff in H as [Hp Hc].
  cbn [Py.replace_from]. rewrite Hp. by rewrite IH.
Qed.

(** A backslash that no space precedes is not a marker. *)
Lemma contains_marker_backslash (p : string) :
  Py.contains p marker = false → Py.endswith p " " = false →
  Py.contains (p +:+ "\") marker = false.
Proof.
  induction p as [|c p IH]; [done|].
  intros H He. cbn [Py.contains] in H. apply orb_false_iff in H as [Hp Hc].
  change (String c p +:+ "\") with (String c (p +:+ "\")).
  cbn [Py.contains]. apply orb_false_iff. split.
  - destruct p as [|d p].
    + unfold marker. cbn [Py.startswith String.append].
      destruct (Ascii.eqb_spec " " c) as [<-|]; [|done].
      by vm_compute in He.
    + etrans; [|exact Hp]. unfold marker.
      change (String d p +:+ "\") with (String d (p +:+ "\")).
      reflexivity.
  - apply IH; [done|]. destruct p as [|d p]; [done|].
    apply not_true_is_false. intros Ht. apply not_true_iff_false in He. apply He.
    apply endswith_suffix. apply endswith_suffix in Ht.
    by apply suffix_cons_r.
Qed.

(** C10. The parser removes the two-character sequence space-backslash
    wherever it occurs in the whitespace-stripped line, not only at its end:
    whenever the stripped line reads [a], marker, [b], the cleaned line is
    the cleaned [a] followed by the cleaned [b], and it is this altered text
    that the extension and directory filters see (the line
    [src_c \/stem.c \] is accepted as [src_c/stem.c]). A line without the
    marker is only stripped; in particular a final backslash that no space
    precedes stays (the line [src_c/stem.c\] keeps its backslash and is
    rejected). *)
Theorem marker_removed_anywhere (self : LibrarySourceCode) (paths : gset string)
    (line a b line' p : string) :
  (Py.strip line = a +:+ " \" +:+ b →
     clean_line line = Py.replace a " \" "" +:+ Py.replace b " \" ""
     ∧ add_line self paths line =
         let altered := Py.replace a " \" "" +:+ Py.replace b " \" "" in
         if Py.endswith altered ".c"
            && bool_decide ((posixpath.split altered).1 ∈ LIBRARY_CORE_DIRS)
         then paths ∪ {[ posixpath.join (_directory self) altered ]}
         else paths)
  ∧ (Py.contains (Py.strip line') " \" = false → clean_line line' = Py.strip line')
  ∧ (Py.strip line' = p +:+ "\" → Py.contains p " \" = false →
     Py.endswith p " " = false → clean_line line' = p +:+ "\")
  ∧ add_line self ∅ (nl "src_c \/stem.c \") =
      {[ posixpath.join (_directory self) "src_c/stem.c" ]}
  ∧ clean_line (nl "src_c/stem.c\") = "src_c/stem.c\"
  ∧ add_line self ∅ (nl "src_c/stem.c\") = ∅.
Proof.
  split; [|split; [|split; [|split; [|split]]]].
  - intros H.
    assert (clean_line line = Py.replace a " \" "" +:+ Py.replace b " \" "") as Hc.
    { unfold clean_line. rewrite H. apply replace_marker_app. }
    split; [done|]. unfold add_line. by rewrite Hc.
  - intros H. by apply replace_marker_free.
  - intros H Hp He. unfold clean_line. rewrite H. apply replace_marker_free.
    by apply contains_marker_backslash.
  - rewrite add_line_eq.
    replace (keeps (nl "src_c \/stem.c \")) with true by (vm_compute; reflexivity).
    replace (clean_line (nl "src_c \/stem.c \")) with "src_c/stem.c"
      by (vm_compute; reflexivity).
    by rewrite (left_id_L ∅ (∪)).
  - vm_compute. reflexivity.
  - rewrite add_line_eq.
    by replace (keeps (nl "src_c/stem.c\")) with false by (vm_compute; reflexivity).
Qed.

Lemma marker_removed_anywhere_witness :
  clean_line (nl "src_c \/stem.c \") = "src_c/stem.c"
  ∧ clean_line (nl "  src_c/stem.c\") = "src_c/stem.c\"
  ∧ add_line LIBRARY_SOURCE_CODE ∅ (nl "src_c \/stem.c \") =
      {[ posixpath.join (_directory LIBRARY_SOURCE_CODE) "src_c/stem.c" ]}.
Proof.
  destruct (marker_removed_anywhere LIBRARY_SOURCE_CODE ∅
              (nl "src_c \/stem.c \") "src_c" "/stem.c \"
              (nl "  src_c/stem.c\") "src_c/stem.c")
    as (H1 & H2 & H3 & H4 & _).
  split; [|split].
  - apply (proj1 (H1 eq_refl)).
  - apply H3; reflexivity.
  - exact H4.
Defined.

(** ** The toggle and the two branches *)

Lemma vendored_build_mode (w : World) (e : Extension) :
  (vendored_build w).1 = Returned e → link_mode e = VENDORED ∧ libraries e = [].
Proof.
  unfold vendored_build, mbind, M_bind.
  destruct (acquire LIBRARY_SOURCE_CODE w) as [[[]|e0] w1]; [|done].
  destruct (source_code_paths LIBRARY_SOURCE_CODE w1) as [[paths|e0] w2]; [|done].
  by intros [= <-].
Qed.

(** C9. The mode toggle is the truthiness of the string held by the
    environment variable [PYSTEMMER_SYSTEM_LIBSTEMMER]: every non-empty
    value, ["0"], ["false"] and ["no"] included, selects the system-library
    branch, whose extension is returned at once in mode SYSTEM_LIBRARY; an
    unset variable or the empty string selects the vendored branch, and
    whatever extension that branch returns is in mode VENDORED. *)
Theorem toggle_is_string_truthiness (environ : gmap string string) :
  C_EXTENSION environ =
    match environ !! toggle_name with
    | Some (String _ _) => mret system_extension
    | Some EmptyString | None => vendored_build
    end
  ∧ C_EXTENSION {[ toggle_name := "0" ]} = mret system_extension
  ∧ C_EXTENSION {[ toggle_name := "false" ]} = mret system_extension
  ∧ C_EXTENSION {[ toggle_name := "no" ]} = mret system_extension
  ∧ C_EXTENSION {[ toggle_name := "" ]} = vendored_build
  ∧ C_EXTENSION ∅ = vendored_build
  ∧ link_mode system_extension = SYSTEM_LIBRARY
  ∧ (∀ paths, link_mode (vendored_extension paths) = VENDORED)
  ∧ (∀ w e, (C_EXTENSION environ w).1 = Returned e →
       link_mode e =
         match environ !! toggle_name with
         | Some (String _ _) => SYSTEM_LIBRARY
         | Some EmptyString | None => VENDORED
         end)
  ∧ (∀ w, match environ !! toggle_name with
          | Some (String _ _) => C_EXTENSION environ w = (Returned system_extension, w)
          | Some EmptyString | None => C_EXTENSION environ w = vendored_build w
          end)
  ∧ (∀ w e, (vendored_build w).1 = Returned e →
       link_mode e = VENDORED ∧ libraries e = [])
  ∧ (∃ e, (C_EXTENSION ∅ ex_world).1 = Returned e ∧ link_mode e = VENDORED)
  ∧ (∃ e, (C_EXTENSION {[ toggle_name := "" ]} ex_world).1 = Returned e
          ∧ link_mode e = VENDORED)
  ∧ (∃ e, (C_EXTENSION {[ toggle_name := "0" ]} ex_world).1 = Returned e
          ∧ link_mode e = SYSTEM_LIBRARY).
Proof.
  assert (C_EXTENSION environ =
    match environ !! toggle_name with
    | Some (String _ _) => mret system_extension
    | Some EmptyString | None => vendored_build
    end) as Hc.
  { unfold C_EXTENSION, SYSTEM_LIBSTEMMER, environ_get, toggle_name.
    destruct (environ !! "PYSTEMMER_SYSTEM_LIBSTEMMER") as [[|c s]|]; reflexivity. }
  split; [exact Hc|]. do 7 (split; [reflexivity|]).
  split; [|split; [|split; [|split; [|split]]]].
  - intros w e. rewrite Hc.
    destruct (environ !! toggle_name) as [[|c s]|].
    + by intros [Hm _]%vendored_build_mode.
    + by intros [= <-].
    + by intros [Hm _]%vendored_build_mode.
  - intros w. rewrite Hc. by destruct (environ !! toggle_name) as [[|c s]|].
  - apply vendored_build_mode.
  - eexists. split; [vm_compute; reflexivity | reflexivity].
  - eexists. split; [vm_compute; reflexivity | reflexivity].
  - eexists. split; [vm_compute; reflexivity | reflexivity].
Qed.

Lemma toggle_is_string_truthiness_witness :
  link_mode (vendored_extension
    {[ "libstemmer_c-3.0.0/src_c/stem_UTF_8_danish.c";
       "libstemmer_c-3.0.0/src_c/stem_UTF_8_dutch.c" ]}) = VENDORED
  ∧ link_mode system_extension = SYSTEM_LIBRARY.
Proof.
  split.
  - destruct (toggle_is_string_truthiness ∅) as (_ & _ & _ & _ & _ & _ & _ & _ & H & _).
    apply (H ex_world). vm_compute. reflexivity.
  - destruct (toggle_is_string_truthiness {[ toggle_name := "no" ]})
      as (_ & _ & _ & _ & _ & _ & _ & _ & H & _).
    apply (H ex_world). reflexivity.
Defined.

(** ** Acquisition *)

Lemma acquire_present (self : LibrarySourceCode) (w : World) :
  is_Some (fs w !! _directory self) → acquire self w = (Returned tt, w).
Proof.
  intros H. unfold acquire, is_present_on_disk, os_path_exists, mbind, M_bind, get_fs, mret, M_ret.
  by rewrite bool_decide_eq_true_2.
Qed.

Lemma acquire_absent (self : LibrarySourceCode) (w : World) :
  fs w !! _directory self = None → acquire self w = download self None None w.
Proof.
  intros H. unfold acquire, is_present_on_disk, os_path_exists, mbind, M_bind, get_fs, mret, M_ret.
  rewrite bool_decide_eq_false_2; [done|]. rewrite H. by intros [? ?].
Qed.

Lemma download_run (url sha : string) (w : World) :
  tarballfetcher.download_and_extract_tarball url sha w =
  let w1 := logged (EvFetch url) w in
  match remote w !! url with
  | None => (Raised (NetworkError url), w1)
  | Some a =>
      let computed := Sha256.hexdigest (Sha256.sha256 (archive_bytes a)) in
      if String.eqb (tarballfetcher.lower computed) (tarballfetcher.lower sha) then
        let w2 := logged EvExtract w1 in
        match archive_members a with
        | None => (Raised ExtractionError, w2)
        | Some members =>
            if existsb tarballfetcher.escapes (members.*1)
            then (Raised ExtractionError, w2)
            else (Returned tt, extracted members w2)
        end
      else (Raised (ChecksumMismatchError sha computed), w1)
  end.
Proof.
  unfold tarballfetcher.download_and_extract_tarball, tarballfetcher.fetch,
    tarballfetcher.verify, tarballfetcher.extract,
    mbind, M_bind, mret, M_ret, log, get_remote, get_fs, put_fs, raise, logged.
  cbn [fs remote trace].
  destruct (remote w !! url) as [a|]; [|done].
  destruct (String.eqb _ _); [|done].
  destruct (archive_members a) as [members|]; [|done].
  destruct (existsb _ _); done.
Qed.



(** ** Composition of the build configuration *)

Lemma vendored_build_present (w : World) :
  is_Some (fs w !! _directory LIBRARY_SOURCE_CODE) →
  vendored_build w =
    match source_code_paths LIBRARY_SOURCE_CODE w with
    | (Returned paths, w') => (Returned (vendored_extension paths), w')
    | (Raised e, w') => (Raised e, w')
    end.
Proof.
  intros H. unfold vendored_build, mbind, M_bind. rewrite (acquire_present _ _ H).
  by destruct (source_code_paths LIBRARY_SOURCE_CODE w) as [[paths|e] w'].
Qed.

Lemma source_code_paths_world (self : LibrarySourceCode) (w : World) :
  (source_code_paths self w).2 = logged (EvOpen (manifest_file_path self)) w.
Proof.
  unfold source_code_paths, iter_manifest_lines, open_and_read_lines,
    mbind, M_bind, log, get_fs, raise, mret, M_ret, logged.
  cbn [fs remote trace]. by destruct (fs w !! manifest_file_path self) as [[c|]|].
Qed.

Lemma fetches_logged_open (path : string) (w : World) :
  fetches (trace (logged (EvOpen path) w)) = fetches (trace w).
Proof. unfold fetches, logged. cbn [trace]. rewrite List.filter_app. simpl. by rewrite app_nil_r. Qed.

(** C3. Composition is mode-exclusive. With a truthy toggle the extension
    has only the binding's own source, names the system library [stemmer],
    is in mode SYSTEM_LIBRARY, and the world is untouched: nothing was
    acquired, no manifest was opened, nothing was fetched. With a falsy
    toggle and the distribution directory present, nothing is fetched, the
    manifest is opened (resolution always runs, and its failure is the
    failure of the composition), and on success the extension carries the
    binding's source followed by the resolved set, and the include
    directory of the distribution, in mode VENDORED. *)
Theorem compose_mode_exclusive (environ : gmap string string) (w : World) :
  (env_truthy (SYSTEM_LIBSTEMMER environ) = true →
     C_EXTENSION environ w = (Returned system_extension, w)
     ∧ sources system_extension = ["src/Stemmer.pyx"]
     ∧ libraries system_extension = ["stemmer"]
     ∧ link_mode system_extension = SYSTEM_LIBRARY)
  ∧ (env_truthy (SYSTEM_LIBSTEMMER environ) = false →
     is_Some (fs w !! _directory LIBRARY_SOURCE_CODE) →
     (C_EXTENSION environ w).2 = logged (EvOpen (manifest_file_path LIBRARY_SOURCE_CODE)) w
     ∧ fetches (trace (C_EXTENSION environ w).2) = fetches (trace w)
     ∧ (C_EXTENSION environ w).1 =
         match (source_code_paths LIBRARY_SOURCE_CODE w).1 with
         | Returned paths => Returned (vendored_extension paths)
         | Raised e => Raised e
         end
     ∧ ∀ paths, (source_code_paths LIBRARY_SOURCE_CODE w).1 = Returned paths →
         ∃ e, (C_EXTENSION environ w).1 = Returned e
           ∧ link_mode e = VENDORED
           ∧ sources e = "src/Stemmer.pyx" :: elements paths
           ∧ include_dirs e = ["libstemmer_c-3.0.0/include"]).
Proof.
  split.
  - intros H. unfold C_EXTENSION. rewrite H. by repeat split.
  - intros H Hp. unfold C_EXTENSION. rewrite H, (vendored_build_present _ Hp).
    pose proof (source_code_paths_world LIBRARY_SOURCE_CODE w) as Hw.
    destruct (source_code_paths LIBRARY_SOURCE_CODE w) as [[paths|e] w'];
      cbn [fst snd] in *; subst w'.
    + split; [done|]. split; [apply fetches_logged_open|]. split; [done|].
      intros paths' [= <-]. eexists. by repeat split.
    + split; [done|]. split; [apply fetches_logged_open|]. split; [done|].
      by intros paths' [=].
Qed.

Lemma ex_world_resolved :
  (source_code_paths LIBRARY_SOURCE_CODE ex_world).1 =
  Returned {[ "libstemmer_c-3.0.0/src_c/stem_UTF_8_danish.c";
              "libstemmer_c-3.0.0/src_c/stem_UTF_8_dutch.c" ]}.
Proof. vm_compute. reflexivity. Qed.

Lemma compose_mode_exclusive_witness :
  C_EXTENSION {[ toggle_name := "1" ]} ex_world = (Returned system_extension, ex_world)
  ∧ (C_EXTENSION ∅ ex_world).1 =
      Returned (vendored_extension
        {[ "libstemmer_c-3.0.0/src_c/stem_UTF_8_danish.c";
           "libstemmer_c-3.0.0/src_c/stem_UTF_8_dutch.c" ]})
  ∧ fetches (trace (C_EXTENSION ∅ ex_world).2) = fetches (trace ex_world).
Proof.
  destruct (compose_mode_exclusive {[ toggle_name := "1" ]} ex_world) as [H1 _].
  destruct (compose_mode_exclusive ∅ ex_world) as [_ H2].
  split; [apply H1; reflexivity|].
  destruct H2 as (_ & Hf & Hr & _); [reflexivity | vm_compute; eauto |].
  split; [|exact Hf]. rewrite Hr. by rewrite ex_world_resolved.
Defined.

(** ** The manifest on disk *)

(** C6. Resolution fails when the manifest is absent: the manifest is looked
    for at the fixed name [mkinc_utf8.mak] under the distribution directory,
    and when nothing exists at that path the resolver raises the error of
    [open] for it (the spec's ManifestNotFoundError) instead of returning a
    set, empty or not. The error is FileNotFoundError, except that a regular
    file standing where a directory of the path should be makes it
    NotADirectoryError. *)
Theorem manifest_absent_fails (self : LibrarySourceCode) (w : World) :
  fs w !! manifest_file_path self = None →
  manifest_file_path self = posixpath.join (_directory self) "mkinc_utf8.mak"
  ∧ manifest_file_path LIBRARY_SOURCE_CODE = "libstemmer_c-3.0.0/mkinc_utf8.mak"
  ∧ (source_code_paths self w).1 =
      Raised (if under_file (fs w) (manifest_file_path self)
              then NotADirectoryError (manifest_file_path self)
              else FileNotFoundError (manifest_file_path self))
  ∧ (under_file (fs w) (manifest_file_path self) = false →
     (source_code_paths self w).1 = Raised (FileNotFoundError (manifest_file_path self)))
  ∧ (self = LIBRARY_SOURCE_CODE →
     (source_code_paths self w).1 =
       Raised (match fs w !! "libstemmer_c-3.0.0" with
               | Some (File _) => NotADirectoryError "libstemmer_c-3.0.0/mkinc_utf8.mak"
               | Some Dir | None => FileNotFoundError "libstemmer_c-3.0.0/mkinc_utf8.mak"
               end))
  ∧ (∀ paths, (source_code_paths self w).1 ≠ Returned paths).
Proof.
  intros H. rewrite (source_code_paths_absent _ _ H). cbn [fst].
  split; [reflexivity|]. split; [reflexivity|]. split; [reflexivity|]. split.
  { intros Hu. unfold missing_error. by rewrite Hu. }
  split; [|done].
  intros ->. rewrite missing_error_default.
  by destruct (fs w !! "libstemmer_c-3.0.0") as [[c|]|].
Qed.

Lemma manifest_absent_fails_witness :
  (source_code_paths LIBRARY_SOURCE_CODE dir_only_world).1 =
    Raised (FileNotFoundError "libstemmer_c-3.0.0/mkinc_utf8.mak")
  ∧ (source_code_paths LIBRARY_SOURCE_CODE file_only_world).1 =
      Raised (NotADirectoryError "libstemmer_c-3.0.0/mkinc_utf8.mak").
Proof.
  split.
  - apply (manifest_absent_fails LIBRARY_SOURCE_CODE dir_only_world); reflexivity.
  - destruct (manifest_absent_fails LIBRARY_SOURCE_CODE file_only_world)
      as (_ & _ & _ & _ & H & _); [reflexivity|].
    apply (H eq_refl).
Defined.

(** C7 as stated fails: with a manifest that lists two sources and a
    directory that holds none of them, both are in the resolved set and
    neither exists. *)
Lemma resolved_path_missing_on_disk :
  (source_code_paths LIBRARY_SOURCE_CODE ex_world).1 =
    Returned {[ "libstemmer_c-3.0.0/src_c/stem_UTF_8_danish.c";
                "libstemmer_c-3.0.0/src_c/stem_UTF_8_dutch.c" ]}
  ∧ (os_path_exists "libstemmer_c-3.0.0/src_c/stem_UTF_8_danish.c" ex_world).1
      = Returned false
  ∧ ¬ (∀ resolved p,
         (source_code_paths LIBRARY_SOURCE_CODE ex_world).1 = Returned resolved →
         p ∈ resolved → is_Some (fs ex_world !! p)).
Proof.
  split; [exact ex_world_resolved|]. split; [reflexivity|].
  intros H.
  specialize (H _ "libstemmer_c-3.0.0/src_c/stem_UTF_8_danish.c" ex_world_resolved).
  destruct H as [n Hn]; [apply elem_of_union; left; by apply elem_of_singleton|].
  vm_compute in Hn. discriminate.
Qed.

Lemma startswith_app (a b : string) : Py.startswith (a +:+ b) a = true.
Proof.
  induction a as [|c a IH]; [by destruct b|].
  simpl. by rewrite Ascii.eqb_refl, IH.
Qed.

Lemma join_relative (a b : string) :
  Py.startswith b "/" = false → Py.startswith (posixpath.join a b) a = true.
Proof.
  intros H. unfold posixpath.join. rewrite H.
  destruct (_ || _); apply startswith_app.
Qed.

Lemma rstrip_char_head (ch : ascii) (s : string) :
  Py.rstrip_char ch (String ch s) = ""
  ∨ ∃ r, Py.rstrip_char ch (String ch s) = String ch r.
Proof.
  cbn [Py.rstrip_char]. destruct (Py.rstrip_char ch s) as [|d r].
  - left. by rewrite Ascii.eqb_refl.
  - right. by eexists.
Qed.

(** The head of an absolute path is empty or absolute. *)
Lemma split_head_absolute (s : string) :
  (posixpath.split (String posixpath.sep s)).1 = ""
  ∨ ∃ r, (posixpath.split (String posixpath.sep s)).1 = String posixpath.sep r.
Proof.
  unfold posixpath.split. cbn [fst].
  assert (∃ n, Z.to_nat (Py.rfind (String posixpath.sep s) posixpath.sep + 1) = S n) as [n ->].
  { destruct (rfind_spec (String posixpath.sep s) posixpath.sep)
      as [[_ Hnot] | (pre & post & Hge & Hk & _)].
    - exfalso. apply Hnot. simpl. apply elem_of_cons. by left.
    - exists (Z.to_nat (Py.rfind (String posixpath.sep s) posixpath.sep)). lia. }
  cbn [Py.take]. destruct (_ && _).
  - apply rstrip_char_head.
  - right. by eexists.
Qed.

Lemma core_dir_relative (line : string) :
  (posixpath.split line).1 ∈ LIBRARY_CORE_DIRS → Py.startswith line "/" = false.
Proof.
  intros H. destruct line as [|c s]; [done|].
  cbn [Py.startswith]. destruct (Ascii.eqb_spec "/" c) as [<-|]; [|done].
  exfalso. destruct (split_head_absolute s) as [He | [r He]];
    unfold posixpath.sep in He; rewrite He in H; unfold LIBRARY_CORE_DIRS in H;
    repeat (apply elem_of_cons in H as [H | H]; [discriminate|]);
    by apply elem_of_nil in H.
Qed.

(** C7, amended. Every resolved path is the distribution directory joined
    with a cleaned manifest line that names a [.c] file of a core
    directory, so it begins with the distribution directory; the set is a
    function of the manifest text alone, and no path is looked up on disk. *)
Theorem resolved_paths_from_manifest (self : LibrarySourceCode) (w w' : World)
    (content : string) (resolved : gset string) :
  fs w !! manifest_file_path self = Some (File content) →
  (source_code_paths self w).1 = Returned resolved →
  (∀ p, p ∈ resolved →
     Py.startswith p (_directory self) = true
     ∧ ∃ line, line ∈ text_lines content
         ∧ p = posixpath.join (_directory self) (clean_line line)
         ∧ Py.endswith (clean_line line) ".c" = true
         ∧ (posixpath.split (clean_line line)).1 ∈ LIBRARY_CORE_DIRS)
  ∧ (fs w' !! manifest_file_path self = Some (File content) →
     (source_code_paths self w').1 = Returned resolved).
Proof.
  intros H Hr. rewrite (source_code_paths_present _ _ _ H) in Hr.
  injection Hr as <-. split.
  - intros p Hp. apply elem_of_foldl_add_line in Hp as [Hp | (line & Hin & Hk & ->)];
      [by apply elem_of_empty in Hp|].
    unfold keeps in Hk. apply andb_true_iff in Hk as [Hc Hd].
    apply bool_decide_eq_true in Hd. split.
    + apply join_relative. by apply core_dir_relative.
    + by exists line.
  - intros H'. by rewrite (source_code_paths_present _ _ _ H').
Qed.

Lemma resolved_paths_from_manifest_witness :
  Py.startswith "libstemmer_c-3.0.0/src_c/stem_UTF_8_danish.c" "libstemmer_c-3.0.0" = true
  ∧ ∃ line, line ∈ text_lines ex_manifest
      ∧ "libstemmer_c-3.0.0/src_c/stem_UTF_8_danish.c" =
          posixpath.join "libstemmer_c-3.0.0" (clean_line line)
      ∧ Py.endswith (clean_line line) ".c" = true
      ∧ (posixpath.split (clean_line line)).1 ∈ LIBRARY_CORE_DIRS.
Proof.
  apply (proj1 (resolved_paths_from_manifest LIBRARY_SOURCE_CODE ex_world ex_world
                  ex_manifest _ eq_refl ex_world_resolved)).
  apply elem_of_union. left. by apply elem_of_singleton.
Defined.

(** ** Downloading: defaults, overrides, bootstrap *)

Lemma download_trace (url sha : string) (w : World) :
  ∃ rest,
    trace (tarballfetcher.download_and_extract_tarball url sha w).2 =
    trace w ++ EvFetch url :: rest.
Proof.
  rewrite download_run. cbv zeta.
  destruct (remote w !! url) as [a|]; [|by exists []].
  destruct (String.eqb _ _); [|by exists []].
  exists [EvExtract].
  destruct (archive_members a) as [members|];
    [destruct (existsb _ _)|]; cbn [snd extracted logged trace];
    by rewrite <- app_assoc.
Qed.

(** C8 as stated fails: a caller who supplies the empty string for both
    parameters gets the default URL fetched and the default checksum
    compared. *)
Lemma empty_override_uses_defaults :
  download LIBRARY_SOURCE_CODE (Some "") (Some "") served_world =
    (Raised (ChecksumMismatchError DEFAULT_CHECKSUM
       "ba7816bf8f01cfea414140de5dae2223b00361a396177a9cb410ff61f20015ad"),
     logged (EvFetch DEFAULT_URI) served_world)
  ∧ ¬ (∀ url checksum : string,
         ∃ rest, trace (download LIBRARY_SOURCE_CODE (Some url) (Some checksum)
                          served_world).2 = EvFetch url :: rest).
Proof.
  assert (download LIBRARY_SOURCE_CODE (Some "") (Some "") served_world =
    (Raised (ChecksumMismatchError DEFAULT_CHECKSUM
       "ba7816bf8f01cfea414140de5dae2223b00361a396177a9cb410ff61f20015ad"),
     logged (EvFetch DEFAULT_URI) served_world)) as H
    by (vm_compute; reflexivity).
  split; [exact H|].
  intros Hc. destruct (Hc "" "") as [rest Hrest]. rewrite H in Hrest.
  vm_compute in Hrest. discriminate.
Qed.

(** C8, amended. The default URL and checksum are embedded constants; a
    supplied value is used exactly when it is a non-empty string, and the
    default is used when the caller supplies nothing or the empty string:
    the request goes to the URL so chosen, and a digest that does not match
    is reported against the checksum so chosen. *)
Theorem defaults_overridable (self : LibrarySourceCode) (url checksum : option string)
    (w : World) :
  let u := match url with Some (String c s) => String c s | _ => DEFAULT_URI end in
  let k := match checksum with Some (String c s) => String c s | _ => DEFAULT_CHECKSUM end in
  DEFAULT_URI = "https://snowballstem.org/dist/libstemmer_c-3.0.0.tar.gz"
  ∧ DEFAULT_CHECKSUM = "d4eca4485f6d3cb4387626a5f508b9b3489d24737525c23ba58026159497a8bc"
  ∧ download self url checksum w =
      tarballfetcher.download_and_extract_tarball u k w
  ∧ (∃ rest, trace (download self url checksum w).2 = trace w ++ EvFetch u :: rest)
  ∧ (∀ a, remote w !! u = Some a →
       let computed := Sha256.hexdigest (Sha256.sha256 (archive_bytes a)) in
       String.eqb (tarballfetcher.lower computed) (tarballfetcher.lower k) = false →
       (download self url checksum w).1 = Raised (ChecksumMismatchError k computed)).
Proof.
  intros u k.
  assert (download self url checksum w =
      tarballfetcher.download_and_extract_tarball u k w) as H.
  { unfold download, u, k. by destruct url as [[|??]|], checksum as [[|??]|]. }
  split; [reflexivity|]. split; [reflexivity|]. split; [exact H|].
  rewrite H. split; [apply download_trace|].
  intros a Ha computed Hne. rewrite download_run. cbv zeta. rewrite Ha.
  fold computed. by rewrite Hne.
Qed.

Lemma defaults_overridable_witness :
  (download LIBRARY_SOURCE_CODE None (Some "00") served_world).1 =
    Raised (ChecksumMismatchError "00"
      (Sha256.hexdigest (Sha256.sha256 (list_byte_of_string "abc")))).
Proof.
  destruct (defaults_overridable LIBRARY_SOURCE_CODE None (Some "00") served_world)
    as (_ & _ & _ & _ & H).
  apply (H {| archive_bytes := list_byte_of_string "abc"; archive_members := Some [] |}).
  - reflexivity.
  - vm_compute. reflexivity.
Defined.

(** C5 as stated fails: with the distribution directory on disk, the
    command still sends a request, run alone or after the module body. *)
Lemma bootstrap_fetches_when_present :
  (is_present_on_disk LIBRARY_SOURCE_CODE ex_world).1 = Returned true
  ∧ fetches (trace (bootstrap None None ex_world).2) = [EvFetch DEFAULT_URI]
  ∧ fetches (trace (setup_py_bootstrap ∅ None None ex_world).2) = [EvFetch DEFAULT_URI]
  ∧ ¬ (∀ w, (is_present_on_disk LIBRARY_SOURCE_CODE w).1 = Returned true →
            fetches (trace (bootstrap None None w).2) = fetches (trace w)).
Proof.
  assert (fetches (trace (bootstrap None None ex_world).2) = [EvFetch DEFAULT_URI]) as H
    by (vm_compute; reflexivity).
  split; [reflexivity|]. split; [exact H|]. split; [vm_compute; reflexivity|].
  intros Hc. specialize (Hc ex_world eq_refl). rewrite H in Hc. discriminate.
Qed.

(** C5, amended. The command takes two optional overrides, and its effect
    is that of [download] with them (the embedded defaults standing in for
    an override not given): a request to the chosen URL, then verification
    and extraction. It makes no presence check, so the request is sent
    whether or not the distribution directory exists. *)
Theorem bootstrap_downloads_unconditionally (url sha256 : option string) (w : World) :
  bootstrap url sha256 w = download LIBRARY_SOURCE_CODE url sha256 w
  ∧ bootstrap url sha256 w =
      tarballfetcher.download_and_extract_tarball
        (Py.or_default url DEFAULT_URI) (Py.or_default sha256 DEFAULT_CHECKSUM) w
  ∧ ∃ rest, trace (bootstrap url sha256 w).2 =
      trace w ++ EvFetch (Py.or_default url DEFAULT_URI) :: rest.
Proof.
  assert (bootstrap url sha256 w = download LIBRARY_SOURCE_CODE url sha256 w) as H.
  { unfold bootstrap, run, finalize_options, parse_options, initialize_options, download.
    cbn [libstemmer_url libstemmer_sha256].
    by destruct url as [[|??]|], sha256 as [[|??]|]. }
  split; [exact H|]. rewrite H. split; [reflexivity|]. apply download_trace.
Qed.

(** * Further properties *)

(** ** The library version *)

Lemma split_nonempty (s : string) (sep : ascii) : Py.split s sep ≠ [].
Proof.
  destruct s as [|c s]; [done|]. simpl.
  destruct (Ascii.eqb c sep); [done|]. by destruct (Py.split s sep).
Qed.

Lemma concat_cons (sep x : string) (y : string) (ys : list string) :
  String.concat sep (x :: y :: ys) = x +:+ sep +:+ String.concat sep (y :: ys).
Proof. reflexivity. Qed.

Lemma join_split (s : string) (sep : ascii) :
  Py.join (String sep "") (Py.split s sep) = s.
Proof.
  unfold Py.join. induction s as [|c s IH]; [done|].
  cbn [Py.split]. destruct (Ascii.eqb_spec c sep) as [->|Hne].
  - pose proof (split_nonempty s sep) as Hn.
    destruct (Py.split s sep) as [|w ws]; [done|].
    rewrite concat_cons, IH. reflexivity.
  - pose proof (split_nonempty s sep) as Hn.
    destruct (Py.split s sep) as [|w [|w' ws]]; [done| |].
    + cbn in *. by rewrite IH.
    + rewrite concat_cons in *. cbn. by rewrite <- IH.
Qed.

Lemma string_app_assoc (a b c : string) : (a +:+ b) +:+ c = a +:+ b +:+ c.
Proof. apply chars_inj. by rewrite !chars_app, app_assoc. Qed.

Lemma string_app_nil_r (a : string) : a +:+ "" = a.
Proof. apply chars_inj. by rewrite chars_app, app_nil_r. Qed.

Lemma split_free (x : string) (sep : ascii) :
  sep ∉ chars x → Py.split x sep = [x].
Proof.
  induction x as [|c x IH]; [done|]. cbn [chars].
  intros [Hc Hx]%not_elem_of_cons. cbn [Py.split].
  destruct (Ascii.eqb_spec c sep) as [->|_]; [done|]. by rewrite IH.
Qed.

Lemma split_app_sep (x r : string) (sep : ascii) :
  sep ∉ chars x → Py.split (x +:+ String sep r) sep = x :: Py.split r sep.
Proof.
  induction x as [|c x IH].
  - intros _. change ("" +:+ String sep r) with (String sep r).
    cbn [Py.split]. by rewrite Ascii.eqb_refl.
  - cbn [chars]. intros [Hc Hx]%not_elem_of_cons.
    change (String c x +:+ String sep r) with (String c (x +:+ String sep r)).
    cbn [Py.split]. destruct (Ascii.eqb_spec c sep) as [->|_]; [done|]. by rewrite IH.
Qed.

Lemma split_parts_free (s : string) (sep : ascii) :
  Forall (λ p, sep ∉ chars p) (Py.split s sep).
Proof.
  induction s as [|c s IH].
  - constructor; [apply not_elem_of_nil | constructor].
  - cbn [Py.split]. destruct (Ascii.eqb_spec c sep) as [->|Hne].
    + constructor; [apply not_elem_of_nil | done].
    + pose proof (split_nonempty s sep) as Hn.
      destruct (Py.split s sep) as [|w ws]; [done|].
      apply Forall_cons in IH as [Hw Hws]. constructor; [|done].
      cbn [chars]. apply not_elem_of_cons. split; [congruence | done].
Qed.

Lemma split_join (parts : list string) (sep : ascii) :
  parts ≠ [] → Forall (λ p, sep ∉ chars p) parts →
  Py.split (Py.join (String sep "") parts) sep = parts.
Proof.
  unfold Py.join. induction parts as [|x [|y ys] IH]; [done| |].
  - intros _ [Hx _]%Forall_cons. by apply split_free.
  - intros _ [Hx Hys]%Forall_cons. rewrite concat_cons.
    change (String sep "" +:+ String.concat (String sep "") (y :: ys))
      with (String sep (String.concat (String sep "") (y :: ys))).
    rewrite split_app_sep by done. by rewrite IH.
Qed.

Lemma join_firstn_prefix (sep : string) (n : nat) (parts : list string) :
  ∃ rest, String.concat sep parts = String.concat sep (firstn n parts) +:+ rest.
Proof.
  revert n. induction parts as [|x [|y ys] IH]; intros [|n].
  - by exists "".
  - by exists "".
  - by eexists.
  - exists "". cbn [firstn String.concat]. destruct n; by rewrite string_app_nil_r.
  - by eexists.
  - destruct (IH n) as [rest Hrest]. rewrite concat_cons, Hrest.
    destruct n as [|n].
    + cbn [firstn String.concat]. eexists. reflexivity.
    + cbn [firstn]. cbn [firstn] in Hrest. rewrite concat_cons.
      exists rest. by rewrite !string_app_assoc.
Qed.

(** X1. The library version is the package version cut to its first three
    dot-separated components: it is a prefix of the package version, its
    components are the first three of the package version, cutting twice
    changes nothing, and a version of at most three components is kept
    whole. The module's [libstemmer_c_version] is this cut of
    [version_str]. *)
Theorem library_version_is_three_component_prefix (v : string) :
  Py.startswith v (libstemmer_c_version_of v) = true
  ∧ Py.split (libstemmer_c_version_of v) "."%char = firstn 3 (Py.split v "."%char)
  ∧ libstemmer_c_version_of (libstemmer_c_version_of v) = libstemmer_c_version_of v
  ∧ ((length (Py.split v "."%char) <= 3)%nat → libstemmer_c_version_of v = v)
  ∧ libstemmer_c_version = libstemmer_c_version_of version_str.
Proof.
  assert (Py.split (libstemmer_c_version_of v) "."%char = firstn 3 (Py.split v "."%char)) as Hs.
  { unfold libstemmer_c_version_of. apply split_join.
    - pose proof (split_nonempty v "."%char). by destruct (Py.split v "."%char).
    - apply Forall_take, split_parts_free. }
  split; [|split; [exact Hs|split; [|split]]].
  - unfold libstemmer_c_version_of, Py.join.
    destruct (join_firstn_prefix "." 3 (Py.split v "."%char)) as [rest Hrest].
    rewrite <- (join_split v "."%char) at 1. unfold Py.join. rewrite Hrest.
    apply startswith_app.
  - unfold libstemmer_c_version_of at 1. rewrite Hs.
    change (firstn 3 (firstn 3 ?l)) with (take 3 (take 3 l)).
    by rewrite take_take.
  - intros Hl. unfold libstemmer_c_version_of.
    rewrite firstn_all2 by done. apply join_split.
  - reflexivity.
Qed.

Lemma library_version_is_three_component_prefix_witness :
  libstemmer_c_version_of "3.0.0" = "3.0.0"
  ∧ Py.startswith "3.0.0.1" (libstemmer_c_version_of "3.0.0.1") = true.
Proof.
  split.
  - destruct (library_version_is_three_component_prefix "3.0.0") as (_ & _ & _ & H & _).
    apply H. vm_compute. lia.
  - destruct (library_version_is_three_component_prefix "3.0.0.1") as (H & _).
    exact H.
Defined.

(** ** The resolved set as a function of the manifest *)

Lemma elem_of_resolved (self : LibrarySourceCode) (lines : list string) (p : string) :
  p ∈ foldl (add_line self) ∅ lines ↔
  ∃ c, c ∈ clean_line <$> lines ∧ accepts c = true
       ∧ p = posixpath.join (_directory self) c.
Proof.
  rewrite elem_of_foldl_add_line. split.
  - intros [H | (line & Hin & Hk & Hp)]; [by apply elem_of_empty in H|].
    exists (clean_line line). split; [by apply list_elem_of_fmap_2 | done].
  - intros (c & Hin & Ha & Hp). right.
    apply list_elem_of_fmap in Hin as (line & -> & Hin). by exists line.
Qed.

(** X2. The resolved set depends only on which cleaned lines the manifest
    holds: two manifests with the same cleaned lines, in whatever order, with
    whatever repetitions, indentation or line endings, resolve to the same
    set. *)
Theorem resolution_ignores_order_and_repeats (self : LibrarySourceCode)
    (w1 w2 : World) (c1 c2 : string) :
  fs w1 !! manifest_file_path self = Some (File c1) →
  fs w2 !! manifest_file_path self = Some (File c2) →
  (∀ l, l ∈ clean_line <$> text_lines c1 ↔ l ∈ clean_line <$> text_lines c2) →
  (source_code_paths self w1).1 = (source_code_paths self w2).1.
Proof.
  intros H1 H2 Hl.
  rewrite (source_code_paths_present _ _ _ H1), (source_code_paths_present _ _ _ H2).
  cbn [fst]. f_equal. apply set_eq. intros p. rewrite !elem_of_resolved.
  split; intros (c & Hin & Ha & Hp); exists c; (split; [by apply Hl | done]).
Qed.

Lemma resolution_ignores_order_and_repeats_witness :
  (source_code_paths LIBRARY_SOURCE_CODE (world_with_manifest ex_manifest)).1 =
  (source_code_paths LIBRARY_SOURCE_CODE (world_with_manifest shuffled_manifest)).1.
Proof.
  apply (resolution_ignores_order_and_repeats LIBRARY_SOURCE_CODE
           (world_with_manifest ex_manifest) (world_with_manifest shuffled_manifest)
           ex_manifest shuffled_manifest).
  - reflexivity.
  - reflexivity.
  - intros l.
    replace (clean_line <$> text_lines ex_manifest) with
      ["src_c/stem_UTF_8_danish.c"; "src_c/stem_UTF_8_dutch.c"; "examples/batch_stemmer.c"]
      by (vm_compute; reflexivity).
    replace (clean_line <$> text_lines shuffled_manifest) with
      ["src_c/stem_UTF_8_dutch.c"; "examples/batch_stemmer.c";
       "src_c/stem_UTF_8_danish.c"; "src_c/stem_UTF_8_dutch.c"]
      by (vm_compute; reflexivity).
    rewrite !elem_of_cons, !elem_of_nil. tauto.
Defined.

Lemma text_lines_nonempty (c : ascii) (s : string) : text_lines (String c s) ≠ [].
Proof.
  cbn [text_lines]. destruct (Ascii.eqb c Py.LF); [done|].
  destruct (Ascii.eqb c Py.CR).
  - destruct s as [|c' s]; [done|]. by destruct (Ascii.eqb c' Py.LF).
  - by destruct (text_lines s).
Qed.

Lemma text_lines_app_bounded (n : nat) (a b : string) :
  (String.length a <= n)%nat →
  text_lines (a +:+ String Py.LF b) = text_lines (a +:+ String Py.LF "") ++ text_lines b.
Proof.
  revert a. induction n as [|n IH]; intros a Hn.
  { destruct a; [reflexivity | simpl in Hn; lia]. }
  destruct a as [|c a]; [reflexivity|].
  simpl in Hn.
  change (String c a +:+ String Py.LF b) with (String c (a +:+ String Py.LF b)).
  change (String c a +:+ String Py.LF "") with (String c (a +:+ String Py.LF "")).
  cbn [text_lines]. destruct (Ascii.eqb c Py.LF).
  { rewrite IH by lia. reflexivity. }
  destruct (Ascii.eqb c Py.CR).
  - destruct a as [|c' a]; [reflexivity|].
    change (String c' a +:+ String Py.LF b) with (String c' (a +:+ String Py.LF b)).
    change (String c' a +:+ String Py.LF "") with (String c' (a +:+ String Py.LF "")).
    cbv match. destruct (Ascii.eqb c' Py.LF).
    + simpl in Hn. rewrite IH by lia. reflexivity.
    + change (String c' (a +:+ String Py.LF b)) with (String c' a +:+ String Py.LF b).
      change (String c' (a +:+ String Py.LF "")) with (String c' a +:+ String Py.LF "").
      rewrite IH by lia. reflexivity.
  - rewrite IH by lia.
    destruct (text_lines (a +:+ String Py.LF "")) as [|l ls] eqn:Hl; [|reflexivity].
    exfalso. destruct a as [|c' a]; [discriminate|].
    by apply (text_lines_nonempty c' (a +:+ String Py.LF "")).
Qed.

Lemma foldl_add_line_app (self : LibrarySourceCode) (l1 l2 : list string) :
  foldl (add_line self) ∅ (l1 ++ l2) =
  foldl (add_line self) ∅ l1 ∪ foldl (add_line self) ∅ l2.
Proof.
  apply set_eq. intros p. rewrite elem_of_union, !elem_of_resolved, fmap_app.
  split.
  - intros (c & [Hin | Hin]%elem_of_app & Ha & Hp); [left | right]; by exists c.
  - intros [(c & Hin & Ha & Hp) | (c & Hin & Ha & Hp)]; exists c;
      (split; [apply elem_of_app; by auto | done]).
Qed.

(** X3. Resolution distributes over the concatenation of manifests: when a
    manifest is a newline-terminated text followed by a second text, its
    resolved set is the union of the sets the two texts resolve to. *)
Theorem resolution_of_concatenated_manifests (self : LibrarySourceCode)
    (w1 w2 w : World) (c1 c2 : string) :
  fs w1 !! manifest_file_path self = Some (File (nl c1)) →
  fs w2 !! manifest_file_path self = Some (File c2) →
  fs w !! manifest_file_path self = Some (File (nl c1 +:+ c2)) →
  ∃ r1 r2 : gset string,
    (source_code_paths self w1).1 = Returned r1
    ∧ (source_code_paths self w2).1 = Returned r2
    ∧ (source_code_paths self w).1 = Returned (r1 ∪ r2).
Proof.
  intros H1 H2 H.
  rewrite (source_code_paths_present _ _ _ H1), (source_code_paths_present _ _ _ H2),
    (source_code_paths_present _ _ _ H).
  eexists _, _. split; [reflexivity|]. split; [reflexivity|]. cbn [fst]. f_equal.
  unfold nl. rewrite string_app_assoc.
  change (String Py.LF "" +:+ c2) with (String Py.LF c2).
  rewrite (text_lines_app_bounded (String.length c1)) by lia.
  apply foldl_add_line_app.
Qed.

Lemma resolution_of_concatenated_manifests_witness :
  ∃ r1 r2 : gset string,
    (source_code_paths LIBRARY_SOURCE_CODE
       (world_with_manifest (nl "src_c/stem_UTF_8_danish.c \"))).1 = Returned r1
    ∧ (source_code_paths LIBRARY_SOURCE_CODE
         (world_with_manifest (nl "src_c/stem_UTF_8_dutch.c"))).1 = Returned r2
    ∧ (source_code_paths LIBRARY_SOURCE_CODE
         (world_with_manifest (nl "src_c/stem_UTF_8_danish.c \"
                               +:+ nl "src_c/stem_UTF_8_dutch.c"))).1
      = Returned (r1 ∪ r2).
Proof.
  apply (resolution_of_concatenated_manifests LIBRARY_SOURCE_CODE
           (world_with_manifest (nl "src_c/stem_UTF_8_danish.c \"))
           (world_with_manifest (nl "src_c/stem_UTF_8_dutch.c"))
           (world_with_manifest (nl "src_c/stem_UTF_8_danish.c \"
                                 +:+ nl "src_c/stem_UTF_8_dutch.c"))
           "src_c/stem_UTF_8_danish.c \" (nl "src_c/stem_UTF_8_dutch.c"));
    reflexivity.
Defined.

(** ** The shape of an accepted entry *)

Lemma split_fst (p : string) :
  (posixpath.split p).1 =
  let head := Py.take (cut_index p) p in
  if Py.truthy head
     && negb (String.eqb head (Py.repeat_char posixpath.sep (String.length head)))
  then Py.rstrip_char posixpath.sep head
  else head.
Proof. reflexivity. Qed.

Lemma rstrip_char_spec (ch : ascii) (s : string) :
  ∃ k, s = Py.rstrip_char ch s +:+ Py.repeat_char ch k.
Proof.
  induction s as [|c s [k IH]]; [by exists 0%nat|].
  cbn [Py.rstrip_char]. destruct (Py.rstrip_char ch s) as [|d r] eqn:Hr.
  - destruct (Ascii.eqb_spec c ch) as [->|Hne].
    + exists (S k). cbn. by rewrite IH at 1.
    + exists k. cbn. by rewrite IH at 1.
  - exists k. rewrite IH at 1. reflexivity.
Qed.

Lemma rstrip_char_repeat (ch : ascii) (k : nat) :
  Py.rstrip_char ch (Py.repeat_char ch k) = "".
Proof.
  induction k as [|k IH]; [done|]. cbn [Py.repeat_char Py.rstrip_char].
  by rewrite IH, Ascii.eqb_refl.
Qed.

Lemma rstrip_char_app_repeat (ch : ascii) (s : string) (k : nat) :
  Py.rstrip_char ch (s +:+ Py.repeat_char ch k) = Py.rstrip_char ch s.
Proof.
  induction s as [|c s IH]; [apply rstrip_char_repeat|].
  change (String c s +:+ Py.repeat_char ch k) with (String c (s +:+ Py.repeat_char ch k)).
  cbn [Py.rstrip_char]. by rewrite IH.
Qed.

Lemma repeat_char_snoc (ch : ascii) (k : nat) :
  Py.repeat_char ch (S k) = Py.repeat_char ch k +:+ String ch "".
Proof. induction k as [|k IH]; [done|]. cbn [Py.repeat_char] in *. by rewrite IH at 1. Qed.

Lemma last_occurrence_unique {A : Type} (x : A) (p1 q1 p2 q2 : list A) :
  p1 ++ x :: q1 = p2 ++ x :: q2 → x ∉ q1 → x ∉ q2 → p1 = p2 ∧ q1 = q2.
Proof.
  revert p2. induction p1 as [|a p1 IH]; intros [|b p2] H H1 H2.
  - by injection H as ->.
  - exfalso. injection H as -> ->. apply H1, elem_of_app. right. apply elem_of_cons. by left.
  - exfalso. injection H as -> <-. apply H2, elem_of_app. right. apply elem_of_cons. by left.
  - injection H as -> H. destruct (IH _ H H1 H2) as [-> ->]. done.
Qed.

(** What the four core directory names have in common. *)
Lemma core_dir_facts (d : string) :
  d ∈ LIBRARY_CORE_DIRS →
  (∃ a d', d = String a d' ∧ a ≠ posixpath.sep)
  ∧ Py.rstrip_char posixpath.sep d = d
  ∧ (∀ h, chars d ≠ h ++ [posixpath.sep])
  ∧ (∀ n, d ≠ Py.repeat_char posixpath.sep n).
Proof.
  unfold LIBRARY_CORE_DIRS. intros H.
  repeat (apply elem_of_cons in H as [-> | H]); [..|by apply elem_of_nil in H].
  all: split; [by eexists _, _|]; split; [reflexivity|]; split.
  all: try (intros h Hh; apply (f_equal reverse) in Hh;
            rewrite reverse_app in Hh; vm_compute in Hh; discriminate).
  all: intros [|n]; discriminate.
Qed.

Lemma eqb_repeat_char_false (a : ascii) (s : string) (n : nat) :
  a ≠ posixpath.sep → String.eqb (String a s) (Py.repeat_char posixpath.sep n) = false.
Proof.
  intros Ha. destruct n as [|n]; [done|]. cbn [Py.repeat_char String.eqb].
  by destruct (Ascii.eqb_spec a posixpath.sep).
Qed.

(** [os.path.split] on a core directory, slashes and a slash-free name. *)
Lemma split_core_entry (d name : string) (k : nat) :
  d ∈ LIBRARY_CORE_DIRS → posixpath.sep ∉ chars name →
  posixpath.split (d +:+ Py.repeat_char posixpath.sep (S k) +:+ name) = (d, name).
Proof.
  intros Hd Hname.
  destruct (core_dir_facts d Hd) as ((a & d' & -> & Ha) & Hr & _ & _).
  set (c := String a d' +:+ Py.repeat_char posixpath.sep (S k) +:+ name).
  assert (chars c = (chars (String a d') ++ chars (Py.repeat_char posixpath.sep k))
                    ++ posixpath.sep :: chars name) as Hc.
  { unfold c. rewrite repeat_char_snoc, !chars_app. cbn [chars].
    by rewrite <- !app_assoc. }
  assert (Py.take (cut_index c) c = String a d' +:+ Py.repeat_char posixpath.sep (S k)
          ∧ Py.drop (cut_index c) c = name) as [Ht Hdr].
  { unfold cut_index.
    destruct (rfind_spec c posixpath.sep) as [[_ Hnot] | (pre & post & Hge & Hk & Hs & Hpost)].
    - exfalso. apply Hnot. rewrite Hc. apply elem_of_app. right. apply elem_of_cons. by left.
    - pose proof Hs as Hs'. rewrite Hc in Hs'.
      apply last_occurrence_unique in Hs' as [Hpre Hpost']; [|done..].
      rewrite Hk.
      replace (Z.to_nat (Z.of_nat (length pre) + 1)) with (S (length pre)) by lia.
      assert (length (pre ++ [posixpath.sep]) = S (length pre)) as Hl
        by (rewrite length_app; simpl; lia).
      assert (chars c = (pre ++ [posixpath.sep]) ++ post) as Hc'
        by (by rewrite Hs, <- app_assoc).
      split; apply chars_inj.
      + rewrite chars_take, Hc', <- Hl, take_app_length, <- Hpre.
        rewrite repeat_char_snoc, !chars_app. cbn [chars]. by rewrite <- !app_assoc.
      + by rewrite chars_drop, Hc', <- Hl, drop_app_length. }
  unfold posixpath.split. fold (cut_index c). rewrite Ht, Hdr. f_equal.
  change (String a d' +:+ Py.repeat_char posixpath.sep (S k))
    with (String a (d' +:+ Py.repeat_char posixpath.sep (S k))) at 1 2.
  cbn [Py.truthy andb]. rewrite eqb_repeat_char_false by done. cbn [negb].
  by rewrite rstrip_char_app_repeat.
Qed.

(** X4. An entry passes the two tests exactly when its cleaned text is one
    of the four core directory names, then one or more slashes, then a file
    name without a slash that ends in [.c]. So a file in a subdirectory of a
    core directory, a path with a leading [./] and a directory in another
    letter case are all left out, while a doubled slash is let through. *)
Theorem accepted_entry_shape (c : string) :
  (accepts c = true ↔
   ∃ d k name, d ∈ LIBRARY_CORE_DIRS
     ∧ c = d +:+ Py.repeat_char posixpath.sep (S k) +:+ name
     ∧ (posixpath.sep ∉ chars name)
     ∧ Py.endswith name ".c" = true)
  ∧ (∀ self paths line,
       add_line self paths line =
       if accepts (clean_line line)
       then paths ∪ {[ posixpath.join (_directory self) (clean_line line) ]}
       else paths)
  ∧ accepts "src_c/sub/x.c" = false
  ∧ accepts "./src_c/x.c" = false
  ∧ accepts "SRC_C/x.c" = false
  ∧ accepts "src_c//x.c" = true.
Proof.
  split; [|by repeat split]. split.
  - intros [Hc Hd%bool_decide_eq_true]%andb_true_iff.
    rewrite endswith_c_filename, split_snd in Hc.
    destruct (split_cut c) as [Hsep Hhead].
    rewrite split_fst in Hd. cbv zeta in Hd.
    destruct (Py.truthy (Py.take (cut_index c) c)
              && negb (String.eqb (Py.take (cut_index c) c)
                         (Py.repeat_char posixpath.sep
                            (String.length (Py.take (cut_index c) c))))) eqn:Hcond.
    + destruct (core_dir_facts _ Hd) as (_ & _ & Hend & _).
      destruct (rstrip_char_spec posixpath.sep (Py.take (cut_index c) c)) as [k Hk].
      destruct k as [|k].
      { exfalso. rewrite string_app_nil_r in Hk. rewrite <- Hk in Hend, Hd.
        destruct Hhead as [He | [h Hh]]; [|by apply (Hend h)].
        rewrite He in Hd. unfold LIBRARY_CORE_DIRS in Hd.
        repeat (apply elem_of_cons in Hd as [Hd | Hd]; [discriminate|]).
        by apply elem_of_nil in Hd. }
      exists (Py.rstrip_char posixpath.sep (Py.take (cut_index c) c)), k,
        (Py.drop (cut_index c) c).
      split; [done|]. split; [|done].
      rewrite <- string_app_assoc, <- Hk. by rewrite take_drop_string.
    + exfalso. destruct (core_dir_facts _ Hd) as ((a & d' & Ht & Ha) & _ & _ & Hrep).
      apply andb_false_iff in Hcond as [Hcond | Hcond].
      * by rewrite Ht in Hcond.
      * apply negb_false_iff, String.eqb_eq in Hcond. by apply Hrep in Hcond.
  - intros (d & k & name & Hd & -> & Hname & Hend). unfold accepts.
    rewrite endswith_c_filename, split_core_entry by done.
    cbn [fst snd]. rewrite Hend. by rewrite bool_decide_eq_true_2.
Qed.

Lemma accepted_entry_shape_witness :
  accepts "libstemmer//utilities.c" = true.
Proof.
  apply (proj1 (accepted_entry_shape "libstemmer//utilities.c")).
  exists "libstemmer", 1%nat, "utilities.c".
  split; [vm_compute; repeat constructor|]. split; [reflexivity|].
  split; [|reflexivity].
  intros H. vm_compute in H. repeat (apply elem_of_cons in H as [H | H]; [discriminate|]).
  by apply elem_of_nil in H.
Defined.

(** ** A marker after more than one space *)

Lemma startswith_marker_snoc (d c : ascii) (s : string) :
  c ≠ "\"%char →
  Py.startswith (String d (s +:+ String c "")) marker = Py.startswith (String d s) marker.
Proof.
  intros Hc. unfold marker. cbn [Py.startswith].
  destruct (Ascii.eqb " " d); [|done]. destruct s as [|e s]; [|reflexivity].
  change ("" +:+ String c "") with (String c ""). cbn [Py.startswith andb].
  by destruct (Ascii.eqb_spec "\" c) as [<-|].
Qed.

Lemma replace_from_marker_snoc (c : ascii) (s : string) (k : nat) :
  c ≠ "\"%char → (k <= String.length s)%nat →
  Py.replace_from marker "" k (s +:+ String c "") =
  Py.replace_from marker "" k s +:+ String c "".
Proof.
  intros Hc. revert k. induction s as [|d s IH]; intros k Hk.
  - simpl in Hk. assert (k = 0%nat) as -> by lia.
    change ("" +:+ String c "") with (String c "").
    cbn [Py.replace_from]. unfold marker at 1. cbn [Py.startswith].
    destruct (Ascii.eqb " " c); reflexivity.
  - change (String d s +:+ String c "") with (String d (s +:+ String c "")).
    destruct k as [|k].
    + cbn [Py.replace_from]. rewrite startswith_marker_snoc by done.
      destruct (Py.startswith (String d s) marker) eqn:Hp.
      * apply startswith_marker_nonempty in Hp. simpl. apply IH. simpl. lia.
      * simpl. by rewrite IH by lia.
    + simpl. apply IH. simpl in Hk. lia.
Qed.

(** X5. A continuation marker that follows two spaces costs the entry its
    place: only the last space goes with the backslash, the cleaned line ends
    in a space, and the line is left out whatever it names. *)
Theorem marker_after_two_spaces_drops_entry (self : LibrarySourceCode)
    (paths : gset string) (line s : string) :
  Py.strip line = s +:+ "  \" →
  clean_line line = Py.replace s " \" "" +:+ " "
  ∧ add_line self paths line = paths.
Proof.
  intros H.
  assert (clean_line line = Py.replace s " \" "" +:+ " ") as Hc.
  { unfold clean_line. rewrite H.
    replace (s +:+ "  \") with ((s +:+ " ") +:+ marker +:+ "")
      by (by rewrite string_app_assoc).
    rewrite replace_marker_app. change (Py.replace "" marker "") with "".
    rewrite string_app_nil_r. apply replace_from_marker_snoc; [done | lia]. }
  split; [exact Hc|]. rewrite add_line_eq.
  assert (keeps line = false) as ->; [|done].
  unfold keeps. rewrite Hc. apply andb_false_iff. left.
  apply not_true_is_false. intros [k Hk]%endswith_suffix.
  rewrite chars_app in Hk. apply (f_equal reverse) in Hk.
  rewrite !reverse_app in Hk. vm_compute in Hk. discriminate.
Qed.

Lemma marker_after_two_spaces_drops_entry_witness :
  clean_line (nl "src_c/stem_UTF_8_danish.c  \") = "src_c/stem_UTF_8_danish.c "
  ∧ add_line LIBRARY_SOURCE_CODE ∅ (nl "src_c/stem_UTF_8_danish.c  \") = ∅.
Proof.
  apply (marker_after_two_spaces_drops_entry LIBRARY_SOURCE_CODE ∅
           (nl "src_c/stem_UTF_8_danish.c  \") "src_c/stem_UTF_8_danish.c").
  reflexivity.
Defined.

(** ** The module body, step by step *)

Lemma vendored_build_run (w : World) :
  vendored_build w =
  match acquire LIBRARY_SOURCE_CODE w with
  | (Returned _, w1) =>
      match source_code_paths LIBRARY_SOURCE_CODE w1 with
      | (Returned paths, w2) => (Returned (vendored_extension paths), w2)
      | (Raised e, w2) => (Raised e, w2)
      end
  | (Raised e, w1) => (Raised e, w1)
  end.
Proof.
  unfold vendored_build, mbind, M_bind.
  destruct (acquire LIBRARY_SOURCE_CODE w) as [[[]|e] w1]; [|done].
  by destruct (source_code_paths LIBRARY_SOURCE_CODE w1) as [[paths|e] w2].
Qed.

Lemma C_EXTENSION_falsy (environ : gmap string string) :
  env_truthy (SYSTEM_LIBSTEMMER environ) = false → C_EXTENSION environ = vendored_build.
Proof. intros H. unfold C_EXTENSION. by rewrite H. Qed.

Lemma source_code_paths_returned (self : LibrarySourceCode) (w : World) (paths : gset string) :
  (source_code_paths self w).1 = Returned paths →
  ∃ content, fs w !! manifest_file_path self = Some (File content)
    ∧ paths = foldl (add_line self) ∅ (text_lines content).
Proof.
  destruct (fs w !! manifest_file_path self) as [[content|]|] eqn:Hm.
  - rewrite (source_code_paths_present _ _ _ Hm). intros [= <-]. by exists content.
  - unfold source_code_paths, iter_manifest_lines, open_and_read_lines,
      mbind, M_bind, log, get_fs, raise. cbn [fs]. by rewrite Hm.
  - by rewrite (source_code_paths_absent _ _ Hm).
Qed.

(** X6. A manifest without a single accepted entry, the empty file
    included, is no error: with a falsy toggle and the directory present the
    extension is built from the binding's own source alone. *)
Theorem manifest_without_entries_builds_binding_only (environ : gmap string string)
    (w : World) (content : string) :
  env_truthy (SYSTEM_LIBSTEMMER environ) = false →
  is_Some (fs w !! _directory LIBRARY_SOURCE_CODE) →
  fs w !! manifest_file_path LIBRARY_SOURCE_CODE = Some (File content) →
  (∀ line, line ∈ text_lines content → accepts (clean_line line) = false) →
  ∃ e, (C_EXTENSION environ w).1 = Returned e
    ∧ sources e = ["src/Stemmer.pyx"]
    ∧ libraries e = []
    ∧ include_dirs e = ["libstemmer_c-3.0.0/include"].
Proof.
  intros Ht Hp Hm Hnone. rewrite (C_EXTENSION_falsy _ Ht), vendored_build_run.
  rewrite (acquire_present _ _ Hp), (source_code_paths_present _ _ _ Hm).
  assert (foldl (add_line LIBRARY_SOURCE_CODE) ∅ (text_lines content) = ∅) as ->.
  { apply set_eq. intros p. rewrite elem_of_foldl_add_line. split.
    - intros [H | (line & Hin & Hk & _)]; [done|].
      unfold keeps in Hk. fold (accepts (clean_line line)) in Hk.
      by rewrite (Hnone _ Hin) in Hk.
    - intros H. by apply elem_of_empty in H. }
  eexists. split; [reflexivity|]. cbn [sources vendored_extension].
  by rewrite elements_empty.
Qed.

Lemma manifest_without_entries_builds_binding_only_witness :
  ∃ e, (C_EXTENSION ∅ (world_with_manifest (nl "snowball_sources= \" +:+ nl ""))).1
       = Returned e
    ∧ sources e = ["src/Stemmer.pyx"]
    ∧ libraries e = []
    ∧ include_dirs e = ["libstemmer_c-3.0.0/include"].
Proof.
  apply (manifest_without_entries_builds_binding_only ∅
           (world_with_manifest (nl "snowball_sources= \" +:+ nl ""))
           (nl "snowball_sources= \" +:+ nl "")).
  - reflexivity.
  - vm_compute. eauto.
  - reflexivity.
  - intros line Hin.
    replace (text_lines (nl "snowball_sources= \" +:+ nl ""))
      with [nl "snowball_sources= \"; nl ""] in Hin by (vm_compute; reflexivity).
    apply elem_of_cons in Hin as [-> | Hin]; [reflexivity|].
    apply elem_of_cons in Hin as [-> | Hin]; [reflexivity|].
    by apply elem_of_nil in Hin.
Defined.

(** X7. A directory that is present but holds no manifest is not repaired:
    with a falsy toggle the composition sends no request, opens the manifest
    and fails with the not-found error of [open]. *)
Theorem incomplete_directory_is_not_repaired (environ : gmap string string) (w : World) :
  env_truthy (SYSTEM_LIBSTEMMER environ) = false →
  fs w !! _directory LIBRARY_SOURCE_CODE = Some Dir →
  fs w !! manifest_file_path LIBRARY_SOURCE_CODE = None →
  C_EXTENSION environ w =
    (Raised (FileNotFoundError "libstemmer_c-3.0.0/mkinc_utf8.mak"),
     logged (EvOpen "libstemmer_c-3.0.0/mkinc_utf8.mak") w)
  ∧ fetches (trace (C_EXTENSION environ w).2) = fetches (trace w).
Proof.
  intros Ht Hp Hm. rewrite (C_EXTENSION_falsy _ Ht), vendored_build_run.
  rewrite acquire_present by (by rewrite Hp).
  rewrite (source_code_paths_absent _ _ Hm), missing_error_default.
  change (_directory LIBRARY_SOURCE_CODE) with "libstemmer_c-3.0.0" in Hp.
  rewrite Hp. split; [reflexivity|]. apply fetches_logged_open.
Qed.

Lemma incomplete_directory_is_not_repaired_witness :
  C_EXTENSION ∅ dir_only_world =
    (Raised (FileNotFoundError "libstemmer_c-3.0.0/mkinc_utf8.mak"),
     logged (EvOpen "libstemmer_c-3.0.0/mkinc_utf8.mak") dir_only_world)
  ∧ fetches (trace (C_EXTENSION ∅ dir_only_world).2) = fetches (trace dir_only_world).
Proof.
  apply (incomplete_directory_is_not_repaired ∅ dir_only_world); reflexivity.
Defined.

(** ** The script as a whole *)

(** X8. The module body runs before the command. With a truthy toggle the
    script is the command alone, so it downloads the sources although the
    build in this mode never reads them. With a falsy toggle a failure of
    the module body is the failure of the script and the command is never
    reached: when the directory is absent and the default download fails,
    the overrides given to [bootstrap] are never used. *)
Theorem module_body_runs_before_command (environ : gmap string string)
    (url sha256 : option string) (w w' : World) (e : Exception) :
  (env_truthy (SYSTEM_LIBSTEMMER environ) = true →
     setup_py_bootstrap environ url sha256 w = bootstrap url sha256 w)
  ∧ (env_truthy (SYSTEM_LIBSTEMMER environ) = false →
     C_EXTENSION environ w = (Raised e, w') →
     setup_py_bootstrap environ url sha256 w = (Raised e, w'))
  ∧ (env_truthy (SYSTEM_LIBSTEMMER environ) = false →
     fs w !! _directory LIBRARY_SOURCE_CODE = None →
     download LIBRARY_SOURCE_CODE None None w = (Raised e, w') →
     setup_py_bootstrap environ url sha256 w = (Raised e, w')).
Proof.
  split; [|split].
  - intros Ht. unfold setup_py_bootstrap, C_EXTENSION, mbind, M_bind. by rewrite Ht.
  - intros _ Hc. unfold setup_py_bootstrap, mbind, M_bind. by rewrite Hc.
  - intros Ht Ha Hd. unfold setup_py_bootstrap, mbind, M_bind.
    rewrite (C_EXTENSION_falsy _ Ht), vendored_build_run.
    by rewrite (acquire_absent _ _ Ha), Hd.
Qed.

Lemma module_body_runs_before_command_witness :
  setup_py_bootstrap {[ toggle_name := "1" ]}
      (Some "https://mirror.example/libstemmer_c.tar.gz") None mirror_world
    = bootstrap (Some "https://mirror.example/libstemmer_c.tar.gz") None mirror_world
  ∧ setup_py_bootstrap ∅
      (Some "https://mirror.example/libstemmer_c.tar.gz") None mirror_world
    = (Raised (NetworkError DEFAULT_URI), logged (EvFetch DEFAULT_URI) mirror_world).
Proof.
  split.
  - apply (module_body_runs_before_command {[ toggle_name := "1" ]}
             (Some "https://mirror.example/libstemmer_c.tar.gz") None
             mirror_world mirror_world (NetworkError DEFAULT_URI)).
    reflexivity.
  - apply (module_body_runs_before_command ∅
             (Some "https://mirror.example/libstemmer_c.tar.gz") None
             mirror_world (logged (EvFetch DEFAULT_URI) mirror_world)
             (NetworkError DEFAULT_URI)); reflexivity.
Defined.

(** ** The sources handed to the compiler *)

Lemma join_default_directory (c : string) :
  Py.startswith c "/" = false →
  posixpath.join "libstemmer_c-3.0.0" c = "libstemmer_c-3.0.0/" +:+ c.
Proof. intros H. unfold posixpath.join. by rewrite H. Qed.

Lemma resolved_path_facts (content p : string) :
  p ∈ foldl (add_line LIBRARY_SOURCE_CODE) ∅ (text_lines content) →
  Py.startswith p "libstemmer_c-3.0.0/" = true ∧ Py.endswith p ".c" = true.
Proof.
  intros (c & _ & [Hc Hd%bool_decide_eq_true]%andb_true_iff & ->)%elem_of_resolved.
  change (_directory LIBRARY_SOURCE_CODE) with "libstemmer_c-3.0.0".
  rewrite join_default_directory by (by apply core_dir_relative).
  split; [apply startswith_app|].
  apply endswith_app in Hc as [q ->]. apply endswith_app.
  exists ("libstemmer_c-3.0.0/" +:+ q). by rewrite string_app_assoc.
Qed.

(** X9. Whatever extension the module body builds, in either mode, its
    source list has no repetition, begins with the binding's own
    [src/Stemmer.pyx], and holds after it only paths that begin with
    [libstemmer_c-3.0.0/] and end in [.c]; it links against [stemmer] or
    against nothing. *)
Theorem extension_sources_well_formed (environ : gmap string string) (w : World)
    (e : Extension) :
  (C_EXTENSION environ w).1 = Returned e →
  ext_name e = "Stemmer"
  ∧ NoDup (sources e)
  ∧ (∃ rest, sources e = "src/Stemmer.pyx" :: rest
       ∧ ∀ p, p ∈ rest →
           Py.startswith p "libstemmer_c-3.0.0/" = true ∧ Py.endswith p ".c" = true)
  ∧ (libraries e = ["stemmer"] ∨ libraries e = []).
Proof.
  unfold C_EXTENSION. destruct (env_truthy (SYSTEM_LIBSTEMMER environ)).
  - intros [= <-]. split; [done|]. split.
    + cbn. apply NoDup_singleton.
    + split; [|by left]. exists []. split; [done|]. intros p Hp. by apply elem_of_nil in Hp.
  - rewrite vendored_build_run.
    destruct (acquire LIBRARY_SOURCE_CODE w) as [[[]|e0] w1]; [|done].
    destruct (source_code_paths LIBRARY_SOURCE_CODE w1) as [[paths|e0] w2] eqn:Hs; [|done].
    intros [= <-].
    destruct (source_code_paths_returned LIBRARY_SOURCE_CODE w1 paths) as (content & _ & ->);
      [by rewrite Hs|].
    split; [done|].
    assert (∀ p, p ∈ elements (foldl (add_line LIBRARY_SOURCE_CODE) ∅ (text_lines content)) →
              Py.startswith p "libstemmer_c-3.0.0/" = true ∧ Py.endswith p ".c" = true) as Hall.
    { intros p Hp%elem_of_elements. by apply (resolved_path_facts content). }
    split; [|split; [|by right]].
    + cbn [sources vendored_extension app]. apply NoDup_cons. split; [|apply NoDup_elements].
      intros [Hp _]%Hall. vm_compute in Hp. discriminate.
    + eexists. split; [reflexivity|]. exact Hall.
Qed.

Lemma extension_sources_well_formed_witness :
  NoDup (sources (vendored_extension
    {[ "libstemmer_c-3.0.0/src_c/stem_UTF_8_danish.c";
       "libstemmer_c-3.0.0/src_c/stem_UTF_8_dutch.c" ]})).
Proof.
  destruct (extension_sources_well_formed ∅ ex_world
              (vendored_extension
                 {[ "libstemmer_c-3.0.0/src_c/stem_UTF_8_danish.c";
                    "libstemmer_c-3.0.0/src_c/stem_UTF_8_dutch.c" ]})) as (_ & H & _).
  - vm_compute. reflexivity.
  - exact H.
Defined.

(** ** Reading the manifest *)

Lemma concat_empty_cons (x : string) (xs : list string) :
  String.concat "" (x :: xs) = x +:+ String.concat "" xs.
Proof. destruct xs; [by rewrite string_app_nil_r | reflexivity]. Qed.

Lemma text_lines_concat (s : string) :
  Py.CR ∉ chars s → String.concat "" (text_lines s) = s.
Proof.
  induction s as [|c s IH]; [done|]. cbn [chars].
  intros [Hc Hs]%not_elem_of_cons. cbn [text_lines].
  destruct (Ascii.eqb_spec c Py.LF) as [->|Hlf].
  { rewrite concat_empty_cons, IH by done. reflexivity. }
  destruct (Ascii.eqb_spec c Py.CR) as [->|_]; [done|].
  specialize (IH Hs). destruct (text_lines s) as [|l ls].
  - cbn in IH. by rewrite <- IH.
  - rewrite concat_empty_cons in *. by rewrite <- IH.
Qed.

Lemma nl_cons (c : ascii) (b : string) : String c (nl b) = nl (String c b).
Proof. reflexivity. Qed.

Lemma yielded_lines_newline (ls : list string) :
  yielded_lines ls → yielded_lines (String Py.LF "" :: ls).
Proof.
  intros (bodies & last & -> & Hb & Hl). exists ("" :: bodies), last.
  split; [reflexivity|]. split; [|done].
  constructor; [|done]. split; apply not_elem_of_nil.
Qed.

Lemma yielded_lines_extend (c : ascii) (l : string) (ls : list string) :
  c ≠ Py.LF → c ≠ Py.CR →
  yielded_lines (l :: ls) → yielded_lines (String c l :: ls).
Proof.
  intros Hlf Hcr (bodies & last & Heq & Hb & Hl).
  assert (break_free (String c "") ∧ ∀ t, break_free t → break_free (String c t)) as [Hc1 Hc].
  { unfold break_free. cbn [chars]. split.
    - split; (apply not_elem_of_cons; split; [congruence | apply not_elem_of_nil]).
    - intros t [H1 H2]. split; (apply not_elem_of_cons; split; [congruence | done]). }
  destruct bodies as [|b bodies].
  - destruct Hl as [-> | (l0 & -> & Hne & Hbf)]; [done|].
    injection Heq as -> ->. exists [], [String c l0].
    split; [reflexivity|]. split; [constructor|]. right.
    exists (String c l0). split; [done|]. split; [done | by apply Hc].
  - cbn [fmap list_fmap] in Heq. injection Heq as -> ->.
    apply Forall_cons in Hb as [Hb Hbs].
    exists (String c b :: bodies), last. split; [reflexivity|]. split; [|done].
    constructor; [by apply Hc | done].
Qed.

Lemma text_lines_yielded (s : string) : yielded_lines (text_lines s).
Proof.
  induction s as [s IH] using (well_founded_induction
    (well_founded_ltof _ String.length)).
  assert (∀ t, (String.length t < String.length s)%nat → yielded_lines (text_lines t))
    as IH' by (intros t Ht; by apply IH).
  clear IH. destruct s as [|c s].
  { exists [], []. split; [reflexivity|]. split; [constructor | by left]. }
  cbn [text_lines]. simpl in IH'.
  destruct (Ascii.eqb_spec c Py.LF) as [->|Hlf].
  { apply yielded_lines_newline, IH'. lia. }
  destruct (Ascii.eqb_spec c Py.CR) as [->|Hcr].
  { destruct s as [|c' s].
    - apply (yielded_lines_newline []).
      exists [], []. split; [reflexivity|]. split; [constructor | by left].
    - destruct (Ascii.eqb c' Py.LF); apply yielded_lines_newline, IH'; simpl; lia. }
  pose proof (IH' s (Nat.lt_succ_diag_r _)) as Hs.
  destruct (text_lines s) as [|l ls].
  - exists [], [String c ""]. split; [reflexivity|]. split; [constructor|]. right.
    exists (String c ""). split; [done|]. split; [done|].
    unfold break_free. cbn [chars].
    split; (apply not_elem_of_cons; split; [congruence | apply not_elem_of_nil]).
  - by apply yielded_lines_extend.
Qed.

Lemma text_lines_body (b r : string) :
  break_free b → text_lines (b +:+ String Py.LF r) = nl b :: text_lines r.
Proof.
  induction b as [|c b IH]; intros [Hlf Hcr].
  - reflexivity.
  - cbn [chars] in Hlf, Hcr.
    apply not_elem_of_cons in Hlf as [Hlf Hlf'], Hcr as [Hcr Hcr'].
    change (String c b +:+ String Py.LF r) with (String c (b +:+ String Py.LF r)).
    cbn [text_lines].
    destruct (Ascii.eqb_spec c Py.LF) as [->|_]; [done|].
    destruct (Ascii.eqb_spec c Py.CR) as [->|_]; [done|].
    by rewrite IH.
Qed.

Lemma text_lines_unterminated (l : string) :
  break_free l → l ≠ "" → text_lines l = [l].
Proof.
  induction l as [|c l IH]; intros [Hlf Hcr] Hne; [done|].
  cbn [chars] in Hlf, Hcr.
  apply not_elem_of_cons in Hlf as [Hlf Hlf'], Hcr as [Hcr Hcr'].
  cbn [text_lines].
  destruct (Ascii.eqb_spec c Py.LF) as [->|_]; [done|].
  destruct (Ascii.eqb_spec c Py.CR) as [->|_]; [done|].
  destruct l as [|c' l]; [reflexivity|].
  by rewrite IH.
Qed.

(** The lines of a text are the only list of that shape that reassembles it. *)
Lemma yielded_lines_unique (ls : list string) :
  yielded_lines ls → text_lines (String.concat "" ls) = ls.
Proof.
  intros (bodies & last & -> & Hb & Hl).
  induction bodies as [|b bodies IH].
  - destruct Hl as [-> | (l & -> & Hne & Hbf)]; [reflexivity|].
    by apply text_lines_unterminated.
  - apply Forall_cons in Hb as [Hb Hbs].
    change ((nl <$> b :: bodies) ++ last) with (nl b :: ((nl <$> bodies) ++ last)).
    rewrite concat_empty_cons. unfold nl at 1. rewrite string_app_assoc.
    change (String Py.LF "" +:+ ?r) with (String Py.LF r).
    rewrite text_lines_body by done. by rewrite IH.
Qed.

(** X10. The manifest is yielded line by line: the yielded list is a run of
    lines, each a text without line breaks followed by one newline, and
    then at most one last line without its newline, which is not empty.
    When the file holds no carriage return, the lines put end to end are the
    file's contents; and the yielded list is the only list of that shape
    that reassembles the contents. *)
Theorem manifest_lines_reassemble (self : LibrarySourceCode) (w : World) (content : string) :
  fs w !! manifest_file_path self = Some (File content) →
  ∃ lines, (iter_manifest_lines self w).1 = Returned lines
    ∧ yielded_lines lines
    ∧ (Py.CR ∉ chars content → String.concat "" lines = content)
    ∧ (∀ ls, yielded_lines ls → String.concat "" ls = content → ls = lines).
Proof.
  intros H. exists (text_lines content). split.
  - unfold iter_manifest_lines, open_and_read_lines, mbind, M_bind, log, get_fs.
    cbn [fs]. by rewrite H.
  - split; [apply text_lines_yielded|]. split; [apply text_lines_concat|].
    intros ls Hls <-. symmetry. by apply yielded_lines_unique.
Qed.

Lemma manifest_lines_reassemble_witness :
  ∃ lines, (iter_manifest_lines LIBRARY_SOURCE_CODE ex_world).1 = Returned lines
    ∧ yielded_lines lines
    ∧ (Py.CR ∉ chars ex_manifest → String.concat "" lines = ex_manifest)
    ∧ (∀ ls, yielded_lines ls → String.concat "" ls = ex_manifest → ls = lines).
Proof.
  apply (manifest_lines_reassemble LIBRARY_SOURCE_CODE ex_world ex_manifest).
  reflexivity.
Defined.
